(** * Car park booking ledger: a shallow embedding of [src/database.ts], of
      the booking routes of [src/server.ts] and of the input the booking form
      ([App.tsx]) builds.

    Strings are byte strings (the UTF-8 text SQLite stores); the table is the
    list of its rows in insertion order together with the AUTOINCREMENT
    counter; exceptions are an explicit completion type; the wall clock that
    SQLite reads for [CURRENT_TIMESTAMP] is an argument of the operations. *)

From Stdlib Require Import ZArith Lia Bool List Ascii String.
From Stdlib Require Import Sorting.Sorted Sorting.Permutation.
Import ListNotations.

Open Scope string_scope.
Open Scope Z_scope.

(** ** Exceptions *)

(** The three classes of JavaScript errors the ledger can raise.  All are
    instances of [Error] and carry a [message]; a [SqliteError] carries in
    addition the result code of the storage engine. *)
Inductive JsError : Type :=
| Error (message : string)
| RangeError (message : string)
| SqliteError (code : string) (message : string).

Definition message (e : JsError) : string :=
  match e with
  | Error m => m
  | RangeError m => m
  | SqliteError _ m => m
  end.

(** The [code] property; absent on plain errors. *)
Definition code (e : JsError) : option string :=
  match e with
  | SqliteError c _ => Some c
  | _ => None
  end.

Inductive Completion (A : Type) : Type :=
| Return (a : A)
| Throw (e : JsError).
Arguments Return {A} a.
Arguments Throw {A} e.

(** ** String primitives used by the source *)

Module JsString.

(** [hay.startsWith(needle)] *)
Fixpoint startsWith (hay needle : string) : bool :=
  match needle, hay with
  | EmptyString, _ => true
  | String _ _, EmptyString => false
  | String c n, String d h => Ascii.eqb c d && startsWith h n
  end.

(** [hay.includes(needle)] *)
Fixpoint includes (hay needle : string) : bool :=
  startsWith hay needle ||
  match hay with
  | EmptyString => false
  | String _ h => includes h needle
  end.

(** The class [\d] of a regular expression without the [u] or [i] flag:
    the ten ASCII digits. *)
Definition is_digit (c : ascii) : bool :=
  let n := Z.of_nat (nat_of_ascii c) in (48 <=? n) && (n <=? 57).

Definition digit_value (c : ascii) : Z := Z.of_nat (nat_of_ascii c) - 48.

Definition digit_char (n : Z) : ascii := ascii_of_nat (Z.to_nat (48 + n)).

(** The decimal digits of [n], least significant last, on exactly [width]
    characters (zero padded). *)
Fixpoint padded (width : nat) (n : Z) : string :=
  match width with
  | O => EmptyString
  | S w => padded w (n / 10) ++ String (digit_char (n mod 10)) EmptyString
  end.

End JsString.

(** ** The built-in [Date], as far as [isValidDateFormat] uses it *)

Module JsDate.
Import JsString.

Definition msPerDay : Z := 86400000.

Definition Day (t : Z) : Z := t / msPerDay.
Definition TimeWithinDay (t : Z) : Z := t mod msPerDay.

Definition DayFromYear (y : Z) : Z :=
  365 * (y - 1970) + (y - 1969) / 4 - (y - 1901) / 100 + (y - 1601) / 400.

Definition isLeap (y : Z) : bool :=
  ((y mod 4 =? 0) && negb (y mod 100 =? 0)) || (y mod 400 =? 0).

Definition DaysInYear (y : Z) : Z := if isLeap y then 366 else 365.

(** The largest year whose first day is not after [t]: a first estimate
    from the mean length of a year, corrected by at most one. *)
Definition YearFromTime (t : Z) : Z :=
  let d := Day t in
  let y := 1970 + (400 * d) / 146097 in
  if d <? DayFromYear y then y - 1
  else if DayFromYear (y + 1) <=? d then y + 1
  else y.

Definition DayWithinYear (t : Z) : Z := Day t - DayFromYear (YearFromTime t).

(** Number of days of the year before month [m] (0 = January). *)
Definition daysBeforeMonth (leap : bool) (m : Z) : Z :=
  let l := if leap then 1 else 0 in
  match m with
  | 0 => 0
  | 1 => 31
  | 2 => 59 + l
  | 3 => 90 + l
  | 4 => 120 + l
  | 5 => 151 + l
  | 6 => 181 + l
  | 7 => 212 + l
  | 8 => 243 + l
  | 9 => 273 + l
  | 10 => 304 + l
  | 11 => 334 + l
  | _ => 365 + l
  end.

Fixpoint month_search (fuel : nat) (leap : bool) (m : Z) (dayInYear : Z) : Z :=
  match fuel with
  | O => m
  | S f =>
      if daysBeforeMonth leap (m + 1) <=? dayInYear
      then month_search f leap (m + 1) dayInYear
      else m
  end.

Definition MonthFromTime (t : Z) : Z :=
  month_search 11 (isLeap (YearFromTime t)) 0 (DayWithinYear t).

Definition DateFromTime (t : Z) : Z :=
  DayWithinYear t
  - daysBeforeMonth (isLeap (YearFromTime t)) (MonthFromTime t) + 1.

Definition HourFromTime (t : Z) : Z := (t / 3600000) mod 24.
Definition MinFromTime (t : Z) : Z := (t / 60000) mod 60.
Definition SecFromTime (t : Z) : Z := (t / 1000) mod 60.
Definition msFromTime (t : Z) : Z := t mod 1000.

(** [MakeDay]: the day number of day [date] of month [month] (0 based) of
    [year]; [date] may exceed the length of the month and then runs over
    into the following months. *)
Definition MakeDay (year month date : Z) : Z :=
  let ym := year + month / 12 in
  let mn := month mod 12 in
  DayFromYear ym + daysBeforeMonth (isLeap ym) mn + date - 1.

Definition MakeDate (day time : Z) : Z := day * msPerDay + time.

Definition IsMonth (x : Z) : bool := (1 <=? x) && (x <=? 12).
Definition IsDay (x : Z) : bool := (1 <=? x) && (x <=? 31).

(** The offset of the host's local time from UTC, in milliseconds.  It only
    enters the dates the legacy reading below builds; the embedding fixes
    UTC, and [isValidDateFormat] answers the same under every offset of at
    most a day (lemma [isValidDateFormat_any_zone]). *)
Definition LocalTZA : Z := 0.

(** [new Date(s)] for a string [s] of the shape [dddd-dd-dd], as the engine
    of the Node.js runtime parses it; the time value is [None] for an Invalid
    Date (NaN).

    The engine first reads an ISO date, year-month-day in UTC: it accepts a
    month from 01 to 12 and a day from 01 to 31, whatever the month, and
    builds the time value with [MakeDay].

    When the month or the day is out of that range it hands the numbers it
    has read to its legacy reading.  If the first number cannot be a day of
    a month (it is 0 or more than 31) they stay year, month and day, and the
    date is invalid.  Otherwise they are read as month, day and two-digit
    year (00..49 in 2000, 50..99 in 1900), in local time, and the date is
    valid when that month is 1..12 and that day 1..31.

    The source only constructs dates from strings that passed its pattern, so
    other shapes are not modelled and are given as invalid. *)
Definition parse (tza : Z) (s : string) : option Z :=
  match s with
  | String y1 (String y2 (String y3 (String y4 (String _
    (String m1 (String m2 (String _
    (String d1 (String d2 EmptyString))))))))) =>
      let year := 1000 * digit_value y1 + 100 * digit_value y2
                  + 10 * digit_value y3 + digit_value y4 in
      let month := 10 * digit_value m1 + digit_value m2 in
      let day := 10 * digit_value d1 + digit_value d2 in
      if IsMonth month && IsDay day
      then Some (MakeDate (MakeDay year (month - 1) day) 0)
      else if IsDay year
      then
        let fullYear := if (0 <=? day) && (day <=? 49) then day + 2000
                        else if (50 <=? day) && (day <=? 99) then day + 1900
                        else day in
        if IsMonth year && IsDay month
        then Some (MakeDate (MakeDay fullYear (year - 1) month) 0 - tza)
        else None
      else None
  | _ => None
  end.

Definition yearString (y : Z) : string :=
  if (0 <=? y) && (y <=? 9999) then padded 4 y
  else if y <? 0 then "-" ++ padded 6 (- y)
  else "+" ++ padded 6 y.

(** [toISOString()]: throws a [RangeError] on an Invalid Date. *)
Definition toISOString (tv : option Z) : Completion string :=
  match tv with
  | None => Throw (RangeError "Invalid time value")
  | Some t =>
      Return (yearString (YearFromTime t) ++ "-"
              ++ padded 2 (MonthFromTime t + 1) ++ "-"
              ++ padded 2 (DateFromTime t) ++ "T"
              ++ padded 2 (HourFromTime t) ++ ":"
              ++ padded 2 (MinFromTime t) ++ ":"
              ++ padded 2 (SecFromTime t) ++ "."
              ++ padded 3 (msFromTime t) ++ "Z")
  end.

End JsDate.

(** ** [src/database.ts] *)

(** [/^\d{4}-\d{2}-\d{2}$/.test(date)] *)
Definition dateRegex_test (date : string) : bool :=
  match date with
  | String y1 (String y2 (String y3 (String y4 (String h1
    (String m1 (String m2 (String h2
    (String d1 (String d2 EmptyString))))))))) =>
      JsString.is_digit y1 && JsString.is_digit y2
      && JsString.is_digit y3 && JsString.is_digit y4
      && Ascii.eqb h1 "-"
      && JsString.is_digit m1 && JsString.is_digit m2
      && Ascii.eqb h2 "-"
      && JsString.is_digit d1 && JsString.is_digit d2
  | _ => false
  end.

(** [isValidDateFormat(date)] on a host whose local time is [tza]
    milliseconds ahead of UTC. *)
Definition isValidDateFormat_at (tza : Z) (date : string) : Completion bool :=
  if negb (dateRegex_test date) then Return false
  else
    let parsedDate := JsDate.parse tza date in
    match JsDate.toISOString parsedDate with
    | Return iso => Return (JsString.startsWith iso date)
    | Throw e => Throw e
    end.

Definition isValidDateFormat (date : string) : Completion bool :=
  isValidDateFormat_at JsDate.LocalTZA date.

(** *** Data model *)

Record Booking : Type := mkBooking {
  id : Z;
  date : string;
  employee_name : option string;   (* [None] is SQL NULL / JS null *)
  employee_email : option string;
  created_at : string
}.

(** The argument of [createBooking]; [None] is an omitted (undefined)
    property. *)
Module Input.
Record CreateBookingInput : Type := mk {
  date : string;
  employee_name : option string;
  employee_email : option string
}.
End Input.
Definition CreateBookingInput : Type := Input.CreateBookingInput.

(** The [bookings] table: its rows in insertion order, and the counter that
    [AUTOINCREMENT] keeps in [sqlite_sequence] (the largest rowid ever
    given out).  Rowids are not bounded in this model. *)
Record Database : Type := mkDatabase {
  bookings : list Booking;
  sqlite_sequence : Z
}.

Definition emptyDatabase : Database := mkDatabase [] 0.

(** [Number.MAX_SAFE_INTEGER].  The driver hands rowids to JavaScript as
    numbers, which are exact up to this bound; the embedding keeps rowids as
    unbounded integers, and the statements about the value [createBooking]
    reads back are made for tables below the bound. *)
Definition MAX_SAFE_INTEGER : Z := 2 ^ 53 - 1.

(** The stored identifiers and the AUTOINCREMENT counter are below the
    bound, so that the next rowid is at most [MAX_SAFE_INTEGER]. *)
Definition ids_safe (db : Database) : Prop :=
  sqlite_sequence db < MAX_SAFE_INTEGER
  /\ Forall (fun b => id b < MAX_SAFE_INTEGER) (bookings db).

(** What [Statement.run] returns. *)
Record RunResult : Type := mkRunResult {
  changes : Z;
  lastInsertRowid : Z
}.

(** [v || null] on an optional string: undefined and the empty string are
    the falsy values. *)
Definition or_null (v : option string) : option string :=
  match v with
  | None => None
  | Some s => if (s =? "")%string then None else Some s
  end.

(** *** Prepared statements *)

Module statements.

Definition has_date (d : string) (b : Booking) : bool := (date b =? d)%string.
Definition has_id (i : Z) (b : Booking) : bool := id b =? i.

(** [ORDER BY date ASC]: rows inserted one by one at their place in the
    byte order of the [date] column. *)
Fixpoint insert_by_date (b : Booking) (l : list Booking) : list Booking :=
  match l with
  | [] => [b]
  | c :: r =>
      if String.leb (date b) (date c) then b :: c :: r
      else c :: insert_by_date b r
  end.

Fixpoint order_by_date (l : list Booking) : list Booking :=
  match l with
  | [] => []
  | b :: r => insert_by_date b (order_by_date r)
  end.

(** [SELECT * FROM bookings ORDER BY date ASC], [.all()] *)
Definition getAllBookings_all (db : Database) : list Booking :=
  order_by_date (bookings db).

(** [SELECT * FROM bookings WHERE date = ?], [.get(date)] *)
Definition getBookingByDate_get (d : string) (db : Database) : option Booking :=
  find (has_date d) (bookings db).

(** [SELECT * FROM bookings WHERE id = ?], [.get(id)] *)
Definition getBookingById_get (i : Z) (db : Database) : option Booking :=
  find (has_id i) (bookings db).

Definition max_rowid (l : list Booking) : Z :=
  fold_right (fun b m => Z.max (id b) m) 0 l.

(** The rowid AUTOINCREMENT gives to the next row: one more than the
    largest rowid of the table and than the largest ever given out. *)
Definition next_rowid (db : Database) : Z :=
  Z.max (max_rowid (bookings db)) (sqlite_sequence db) + 1.

(** [INSERT INTO bookings (date, employee_name, employee_email)
    VALUES (?, ?, ?)], [.run(...)].
    The UNIQUE constraint on [date] aborts the statement with
    SQLITE_CONSTRAINT_UNIQUE and leaves the table as it was; otherwise the
    row gets the next AUTOINCREMENT rowid and the current timestamp.
    Rowids are unbounded here: the refusal of the storage at its largest
    rowid (SQLITE_FULL at 2^63 - 1) and the failures of the host (a locked or
    full disk) are outside the model; what [createBooking] does with an error
    of the storage other than the uniqueness violation is in
    [createBooking_body_on]. *)
Definition createBooking_run (now : string) (d : string)
    (name email : option string) (db : Database)
  : (RunResult * Database) + JsError :=
  if existsb (has_date d) (bookings db)
  then inr (SqliteError "SQLITE_CONSTRAINT_UNIQUE"
                        "UNIQUE constraint failed: bookings.date")
  else
    let rowid := next_rowid db in
    inl (mkRunResult 1 rowid,
         mkDatabase (bookings db ++ [mkBooking rowid d name email now]) rowid).

(** [DELETE FROM bookings WHERE date = ?], [.run(date)]: the [changes] of
    its result, the number of rows removed (the source reads nothing else of
    the result), and the table that is left. *)
Definition deleteBooking_run (d : string) (db : Database) : Z * Database :=
  let kept := filter (fun b => negb (has_date d b)) (bookings db) in
  (Z.of_nat (List.length (bookings db)) - Z.of_nat (List.length kept),
   mkDatabase kept (sqlite_sequence db)).

End statements.

(** [db.transaction(fn)()]: commits when [fn] returns and rolls back to the
    state before the transaction when it throws. *)
Definition db_transaction {A : Type}
    (fn : Database -> Completion A * Database) (db : Database)
  : Completion A * Database :=
  match fn db with
  | (Return a, db') => (Return a, db')
  | (Throw e, _) => (Throw e, db)
  end.

(** *** Exported functions *)

Definition getAllBookings (db : Database) : list Booking :=
  statements.getAllBookings_all db.

Definition getBookingByDate (d : string) (db : Database) : option Booking :=
  statements.getBookingByDate_get d db.

Definition InvalidDate_message : string := "Date must be in YYYY-MM-DD format".

Definition DateAlreadyBooked_message (d : string) : string :=
  "Date " ++ d ++ " is already booked".

(** The body handed to [db.transaction] in [createBooking], on the outcome
    of the INSERT: the row is read back by its rowid, or the error of the
    storage goes through the [catch] clause.  The rowid is read back as the
    integer it is; the driver hands it over as a JavaScript number, which is
    that integer up to [MAX_SAFE_INTEGER], and the statements about the value
    read back assume [ids_safe]. *)
Definition createBooking_body_on (outcome : (RunResult * Database) + JsError)
    (input : CreateBookingInput) (db : Database)
  : Completion (option Booking) * Database :=
  match outcome with
  | inl (info, db') =>
      let booking := statements.getBookingById_get (lastInsertRowid info) db' in
      (Return booking, db')
  | inr error =>
      match code error with
      | Some c =>
          if (c =? "SQLITE_CONSTRAINT_UNIQUE")%string
          then (Throw (Error (DateAlreadyBooked_message (Input.date input))), db)
          else (Throw error, db)
      | None => (Throw error, db)
      end
  end.

Definition createBooking_body (now : string) (input : CreateBookingInput)
    (db : Database) : Completion (option Booking) * Database :=
  createBooking_body_on
    (statements.createBooking_run now (Input.date input)
       (or_null (Input.employee_name input))
       (or_null (Input.employee_email input)) db)
    input db.

Definition createBooking_transaction (now : string) (input : CreateBookingInput)
  : Database -> Completion (option Booking) * Database :=
  db_transaction (createBooking_body now input).

(** [createBooking(input)].  The result is [Return None] if the row fetched
    back by id were undefined. *)
Definition createBooking (now : string) (input : CreateBookingInput)
    (db : Database) : Completion (option Booking) * Database :=
  match isValidDateFormat (Input.date input) with
  | Throw e => (Throw e, db)
  | Return false => (Throw (Error InvalidDate_message), db)
  | Return true => createBooking_transaction now input db
  end.

Definition deleteBooking (d : string) (db : Database) : bool * Database :=
  let (info_changes, db') := statements.deleteBooking_run d db in
  (0 <? info_changes, db').

(** ** The ledger as a state machine *)

(** One call of the ledger interface.  A create carries the timestamp the
    storage engine reads when the call runs. *)
Inductive LedgerOp : Type :=
| OpCreate (now : string) (input : CreateBookingInput)
| OpDeleteByDate (d : string)
| OpGetByDate (d : string)
| OpListOrdered.

Definition apply_op (op : LedgerOp) (db : Database) : Database :=
  match op with
  | OpCreate now input => snd (createBooking now input db)
  | OpDeleteByDate d => snd (deleteBooking d db)
  | OpGetByDate d => let _ := getBookingByDate d db in db
  | OpListOrdered => let _ := getAllBookings db in db
  end.

(** The states the collection goes through, the initial one included. *)
Fixpoint history (ops : list LedgerOp) (db : Database) : list Database :=
  db :: match ops with
        | [] => []
        | op :: rest => history rest (apply_op op db)
        end.

(** Number of live bookings for a date. *)
Definition live_count (d : string) (db : Database) : nat :=
  List.length (filter (statements.has_date d) (bookings db)).

(** ** [src/server.ts]: the booking routes *)

Module Server.

(** The JSON body of a POST whose [date], [employee_name] and
    [employee_email] are strings or absent, as the type [CreateBookingInput]
    of the source has them.  Bodies with other JSON values there (numbers,
    booleans, null, arrays), which the route does not check for, are outside
    the model. *)
Record RequestBody : Type := mkBody {
  date : option string;
  employee_name : option string;
  employee_email : option string
}.

Inductive Json : Type :=
| JsonBooking (b : option Booking)
| JsonBookings (l : list Booking)
| JsonError (error : string)
| NoBody.

Record Response : Type := mkResponse {
  status : Z;
  body : Json
}.

(** [GET /api/bookings] *)
Definition get_bookings (db : Database) : Response :=
  mkResponse 200 (JsonBookings (getAllBookings db)).

(** The [catch] clause of [POST /api/bookings]. *)
Definition post_bookings_catch (error : JsError) : Response :=
  if JsString.includes (message error) "Invalid date format"
  then mkResponse 400 (JsonError (message error))
  else if JsString.includes (message error) "already booked"
  then mkResponse 409 (JsonError (message error))
  else mkResponse 500 (JsonError "Failed to create booking").

(** [POST /api/bookings] *)
Definition post_bookings (now : string) (req : RequestBody) (db : Database)
  : Response * Database :=
  match date req with
  | None => (mkResponse 400 (JsonError "Date is required"), db)
  | Some d =>
      if (d =? "")%string
      then (mkResponse 400 (JsonError "Date is required"), db)
      else
        let input := Input.mk d (employee_name req) (employee_email req) in
        match createBooking now input db with
        | (Return booking, db') => (mkResponse 201 (JsonBooking booking), db')
        | (Throw error, db') => (post_bookings_catch error, db')
        end
  end.

(** [DELETE /api/bookings/:date] *)
Definition delete_booking (d : string) (db : Database) : Response * Database :=
  let (deleted, db') := deleteBooking d db in
  if negb deleted
  then (mkResponse 404 (JsonError "Booking not found"), db')
  else (mkResponse 204 NoBody, db').

End Server.

(** ** Concurrent callers of [createBooking]

    [createBooking] runs in two stages: the date check, which touches no
    storage, and the transaction, which the storage engine runs as one
    atomic unit.  A set of concurrent calls is a pool of calls, each at its
    own stage; a schedule picks, step after step, the call that runs its
    next stage. *)

Module Concurrent.

Inductive Call : Type :=
| Pending (now : string) (input : CreateBookingInput)
| Checked (now : string) (input : CreateBookingInput)
| Finished (input : CreateBookingInput) (result : Completion (option Booking)).

Definition call_input (c : Call) : CreateBookingInput :=
  match c with
  | Pending _ i => i
  | Checked _ i => i
  | Finished i _ => i
  end.

Definition step_call (c : Call) (db : Database) : Call * Database :=
  match c with
  | Pending now input =>
      match isValidDateFormat (Input.date input) with
      | Throw e => (Finished input (Throw e), db)
      | Return false => (Finished input (Throw (Error InvalidDate_message)), db)
      | Return true => (Checked now input, db)
      end
  | Checked now input =>
      let (result, db') := createBooking_transaction now input db in
      (Finished input result, db')
  | Finished _ _ => (c, db)
  end.

(** The call at position [i] of the pool runs its next stage. *)
Fixpoint step_at (i : nat) (pool : list Call) (db : Database)
  : list Call * Database :=
  match pool with
  | [] => ([], db)
  | c :: rest =>
      match i with
      | O => let (c', db') := step_call c db in (c' :: rest, db')
      | S j => let (rest', db') := step_at j rest db in (c :: rest', db')
      end
  end.

Fixpoint run (schedule : list nat) (pool : list Call) (db : Database)
  : list Call * Database :=
  match schedule with
  | [] => (pool, db)
  | i :: rest => let (pool', db') := step_at i pool db in run rest pool' db'
  end.

Definition is_finished (c : Call) : bool :=
  match c with Finished _ _ => true | _ => false end.

Definition is_winner (c : Call) : bool :=
  match c with Finished _ (Return _) => true | _ => false end.


Definition winners (pool : list Call) : nat :=
  List.length (filter is_winner pool).


(** The [i]-th caller starts with timestamp [now] and input [input]. *)
Definition start (calls : list (string * CreateBookingInput)) : list Call :=
  map (fun c => Pending (fst c) (snd c)) calls.

End Concurrent.

(** A stored row agrees with the input of the call that created it. *)
Definition row_of_input (b : Booking) (input : CreateBookingInput) : Prop :=
  date b = Input.date input
  /\ employee_name b = or_null (Input.employee_name input)
  /\ employee_email b = or_null (Input.employee_email input).

(** The row a successful [createBooking] stores, and the state it leaves. *)
Definition inserted_row (now : string) (input : CreateBookingInput)
    (db : Database) : Booking :=
  mkBooking (statements.next_rowid db) (Input.date input)
            (or_null (Input.employee_name input))
            (or_null (Input.employee_email input)) now.

Definition inserted_db (now : string) (input : CreateBookingInput)
    (db : Database) : Database :=
  mkDatabase (bookings db ++ [inserted_row now input db])
             (statements.next_rowid db).

(** Ascending order of the [date] column, as bytes. *)
Definition date_le (a b : Booking) : Prop :=
  String.leb (date a) (date b) = true.

(** ** Invariants

    The predicates the proofs below carry along the runs of the ledger. *)

(** No date has two live bookings. *)
Definition unique_dates (db : Database) : Prop :=
  forall d, (live_count d db <= 1)%nat.

Module Race.
Import Concurrent.

(** What is known of one call racing for date [d], in state [db]: a call
    that returned did so with the one stored row of that date, built from
    its own input; a call that failed did so with the duplicate-date
    error, the date being taken. *)
Definition call_ok (d : string) (db : Database) (c : Call) : Prop :=
  Input.date (call_input c) = d /\
  match c with
  | Finished input (Return r) =>
      exists b, r = Some b /\ row_of_input b input
                /\ filter (statements.has_date d) (bookings db) = [b]
  | Finished _ (Throw e) =>
      e = Error (DateAlreadyBooked_message d) /\ live_count d db = 1%nat
  | _ => True
  end.

Definition pool_inv (d : string) (pool : list Call) (db : Database) : Prop :=
  Forall (call_ok d db) pool
  /\ winners pool = live_count d db
  /\ (live_count d db <= 1)%nat.


(** What is known of one call for date [d] when no call can win (the
    date is not valid or is taken): no call has returned, and a call is past
    the date check only if the date is valid. *)
Definition call_blocked (d : string) (c : Call) : Prop :=
  Input.date (call_input c) = d /\
  match c with
  | Pending _ _ => True
  | Checked _ _ => isValidDateFormat d = Return true
  | Finished _ r => exists e, r = Throw e
  end.

End Race.

(** The state after a sequence of operations, and the states the ledger can
    be in when it starts empty. *)
Definition run_ops (ops : list LedgerOp) (db : Database) : Database :=
  fold_left (fun s op => apply_op op s) ops db.

Definition reachable (db : Database) : Prop :=
  exists ops, db = run_ops ops emptyDatabase.

(** Rows in the order of their identifiers. *)
Definition id_lt (a b : Booking) : Prop := id a < id b.

(** ** The booking form ([App.tsx]) *)

Module App.

(** The state of the form: the three text fields. *)
Record FormData : Type := mkFormData {
  date : string;
  employee_name : string;
  employee_email : string
}.

(** [...(s && { key: s })]: the property is present when [s] is not empty. *)
Definition spread_if_set (s : string) : option string :=
  if (s =? "")%string then None else Some s.

(** The [bookingInput] that [handleSubmit] builds from the form. *)
Definition bookingInput (formData : FormData) : Server.RequestBody :=
  Server.mkBody (Some (date formData))
                (spread_if_set (employee_name formData))
                (spread_if_set (employee_email formData)).

(** The message [handleSubmit] shows for the status of a failed request. *)
Definition submitError (status : Z) : string :=
  if status =? 409
  then "This date is already booked. Please choose another date."
  else if status =? 400
  then "Invalid date format. Please use a valid date."
  else "Failed to create booking. Please try again.".

End App.

(** ** The Gregorian calendar, to state what the date check accepts *)

Definition daysInMonthOf (leap : bool) (m : Z) : Z :=
  match m with
  | 1 => 31
  | 2 => if leap then 29 else 28
  | 3 => 31
  | 4 => 30
  | 5 => 31
  | 6 => 30
  | 7 => 31
  | 8 => 31
  | 9 => 30
  | 10 => 31
  | 11 => 30
  | 12 => 31
  | _ => 0
  end.

Definition daysInMonth (y m : Z) : Z := daysInMonthOf (JsDate.isLeap y) m.

(** The text [YYYY-MM-DD] of three numbers, each zero padded. *)
Definition date_text (y m d : Z) : string :=
  JsString.padded 4 y ++ "-" ++ JsString.padded 2 m ++ "-" ++ JsString.padded 2 d.

(** The texts of the days of the Gregorian calendar, years 0000 to 9999. *)
Definition calendar_date (s : string) : Prop :=
  exists y m d,
    s = date_text y m d
    /\ 0 <= y <= 9999 /\ 1 <= m <= 12 /\ 1 <= d <= daysInMonth y m.

(** The number a string of decimal digits denotes. *)
Fixpoint digits_value (acc : Z) (s : string) : Z :=
  match s with
  | EmptyString => acc
  | String c r => digits_value (10 * acc + JsString.digit_value c) r
  end.

(** * Properties *)

(** ** The model of [Date] *)

Example iso_2025_12_03 :
  JsDate.toISOString (JsDate.parse 0 "2025-12-03") = Return "2025-12-03T00:00:00.000Z".
Proof. reflexivity. Qed.

Example iso_2025_02_30 :
  JsDate.toISOString (JsDate.parse 0 "2025-02-30") = Return "2025-03-02T00:00:00.000Z".
Proof. reflexivity. Qed.

Example iso_2024_02_29 :
  JsDate.toISOString (JsDate.parse 0 "2024-02-29") = Return "2024-02-29T00:00:00.000Z".
Proof. reflexivity. Qed.

Example iso_0000_01_01 :
  JsDate.toISOString (JsDate.parse 0 "0000-01-01") = Return "0000-01-01T00:00:00.000Z".
Proof. reflexivity. Qed.

Example iso_9999_12_31 :
  JsDate.toISOString (JsDate.parse 0 "9999-12-31") = Return "9999-12-31T00:00:00.000Z".
Proof. reflexivity. Qed.

Example iso_1969_12_31 :
  JsDate.toISOString (JsDate.parse 0 "1969-12-31") = Return "1969-12-31T00:00:00.000Z".
Proof. reflexivity. Qed.

Example iso_1900_02_29 :
  JsDate.toISOString (JsDate.parse 0 "1900-02-29") = Return "1900-03-01T00:00:00.000Z".
Proof. reflexivity. Qed.


(** [YearFromTime] is the year the day falls in, for every time value. *)
Lemma YearFromTime_spec (t : Z) :
  JsDate.DayFromYear (JsDate.YearFromTime t) <= JsDate.Day t
  < JsDate.DayFromYear (JsDate.YearFromTime t + 1).
Proof.
  unfold JsDate.YearFromTime.
  generalize (JsDate.Day t); intros d. cbv zeta.
  destruct (Z.ltb_spec d (JsDate.DayFromYear (1970 + 400 * d / 146097)));
  [| destruct (Z.leb_spec (JsDate.DayFromYear (1970 + 400 * d / 146097 + 1)) d)];
  unfold JsDate.DayFromYear in *;
  Z.div_mod_to_equations; lia.
Qed.

(** ** Strings *)

Section StringFacts.

Lemma startsWith_app (n rest : string) : JsString.startsWith (n ++ rest) n = true.
Proof.
  induction n as [| c n IH]; simpl.
  - destruct rest; reflexivity.
  - rewrite Ascii.eqb_refl. exact IH.
Qed.

Lemma includes_app_l (a b n : string) :
  JsString.includes b n = true -> JsString.includes (a ++ b) n = true.
Proof.
  intros H. induction a as [| c a IH]; simpl.
  - exact H.
  - rewrite IH. apply orb_true_r.
Qed.

Lemma includes_prefix (n rest : string) : JsString.includes (n ++ rest) n = true.
Proof.
  destruct n as [| c n].
  - destruct rest; reflexivity.
  - change (JsString.includes (String c n ++ rest) (String c n))
      with (JsString.startsWith (String c n ++ rest) (String c n)
            || JsString.includes (n ++ rest) (String c n)).
    now rewrite startsWith_app.
Qed.

(** A needle whose first character does not occur in the text is not
    included in it. *)
Lemma includes_first_absent (c : ascii) (n hay : string) :
  (forall x, In x (list_ascii_of_string hay) -> Ascii.eqb c x = false) ->
  JsString.includes hay (String c n) = false.
Proof.
  induction hay as [| x h IH]; intros H; [reflexivity |].
  cbn [JsString.includes JsString.startsWith].
  rewrite (H x) by (now left). cbn [andb orb].
  apply IH. intros y Hy. apply H. now right.
Qed.

Lemma digit_not_I (c : ascii) :
  JsString.is_digit c = true -> Ascii.eqb "I" c = false.
Proof.
  destruct c as [[] [] [] [] [] [] [] []]; vm_compute; congruence.
Qed.

(** The shape of the strings the pattern accepts. *)
Lemma dateRegex_test_shape (s : string) :
  dateRegex_test s = true ->
  exists y1 y2 y3 y4 m1 m2 d1 d2,
    s = String y1 (String y2 (String y3 (String y4 (String "-"
        (String m1 (String m2 (String "-"
        (String d1 (String d2 EmptyString)))))))))
    /\ Forall (fun c => JsString.is_digit c = true)
              [y1; y2; y3; y4; m1; m2; d1; d2].
Proof.
  do 10 (destruct s as [| ? s]; try discriminate).
  destruct s; try discriminate.
  cbn [dateRegex_test]. intros H.
  do 9 (apply andb_prop in H; destruct H as [H ?]).
  repeat match goal with
         | E : Ascii.eqb _ _ = true |- _ => apply Ascii.eqb_eq in E; subst
         end.
  do 8 eexists. split; [reflexivity |].
  repeat constructor; assumption.
Qed.

Lemma isValidDateFormat_true_regex (d : string) :
  isValidDateFormat d = Return true -> dateRegex_test d = true.
Proof.
  unfold isValidDateFormat, isValidDateFormat_at.
  destruct (dateRegex_test d); [trivial | discriminate].
Qed.

End StringFacts.

(** ** The table *)

Section Table.
Import statements.

Lemma max_rowid_ge (l : list Booking) (b : Booking) :
  In b l -> id b <= max_rowid l.
Proof.
  induction l as [| c l IH]; simpl; [tauto |].
  intros [-> | H]; [lia | specialize (IH H); lia].
Qed.

(** Below the bound, the next rowid is a number JavaScript holds exactly. *)
Lemma ids_safe_next_rowid (db : Database) :
  ids_safe db -> next_rowid db <= MAX_SAFE_INTEGER.
Proof.
  intros [Hseq Hids]. unfold next_rowid.
  assert (max_rowid (bookings db) < MAX_SAFE_INTEGER).
  { unfold max_rowid. induction Hids as [| c l Hc _ IH]; cbn [fold_right].
    - reflexivity.
    - apply Z.max_lub_lt; assumption. }
  lia.
Qed.

Lemma find_by_id_appended (l : list Booking) (b : Booking) :
  max_rowid l < id b -> find (has_id (id b)) (l ++ [b]) = Some b.
Proof.
  induction l as [| c l IH]; simpl; intros H.
  - unfold has_id. now rewrite Z.eqb_refl.
  - unfold has_id at 1. destruct (Z.eqb_spec (id c) (id b)); [lia |].
    apply IH. lia.
Qed.

Lemma find_by_date_appended (l : list Booking) (b : Booking) :
  existsb (has_date (date b)) l = false ->
  find (has_date (date b)) (l ++ [b]) = Some b.
Proof.
  induction l as [| c l IH]; simpl; intros H.
  - unfold has_date. now rewrite String.eqb_refl.
  - apply orb_false_elim in H as [Hc Hl]. rewrite Hc. now apply IH.
Qed.

Lemma live_count_existsb (d : string) (db : Database) :
  existsb (has_date d) (bookings db) = negb (Nat.eqb (live_count d db) 0).
Proof.
  unfold live_count. induction (bookings db) as [| c l IH]; simpl; [reflexivity |].
  destruct (has_date d c); simpl; [reflexivity | exact IH].
Qed.

Lemma live_count_zero (d : string) (db : Database) :
  live_count d db = 0%nat <-> existsb (has_date d) (bookings db) = false.
Proof.
  rewrite live_count_existsb.
  destruct (Nat.eqb_spec (live_count d db) 0); simpl; intuition congruence.
Qed.

Lemma filter_none (d : string) (l : list Booking) :
  existsb (has_date d) l = false -> filter (has_date d) l = [].
Proof.
  induction l as [| c l IH]; simpl; [reflexivity |].
  intros H. apply orb_false_elim in H as [Hc Hl]. rewrite Hc. auto.
Qed.

Lemma filter_keep_all (d : string) (l : list Booking) :
  existsb (has_date d) l = false ->
  filter (fun b => negb (has_date d b)) l = l.
Proof.
  induction l as [| c l IH]; simpl; [reflexivity |].
  intros H. apply orb_false_elim in H as [Hc Hl]. rewrite Hc. simpl.
  f_equal. auto.
Qed.

Lemma existsb_after_delete (d : string) (l : list Booking) :
  existsb (has_date d) (filter (fun b => negb (has_date d b)) l) = false.
Proof.
  induction l as [| c l IH]; simpl; [reflexivity |].
  destruct (has_date d c) eqn:E; simpl; [exact IH | now rewrite E].
Qed.

Lemma has_date_other (d e : string) (b : Booking) :
  has_date d b = true -> d <> e -> has_date e b = false.
Proof.
  unfold has_date. intros H Hne. apply String.eqb_eq in H.
  apply String.eqb_neq. congruence.
Qed.

End Table.

(** ** [createBooking], case by case *)

Section CreateBooking.
Import statements.
Variables (now : string) (input : CreateBookingInput) (db : Database).

(** A valid, free date: the row is inserted and handed back. *)
Lemma createBooking_fresh :
  isValidDateFormat (Input.date input) = Return true ->
  existsb (has_date (Input.date input)) (bookings db) = false ->
  createBooking now input db
  = (Return (Some (inserted_row now input db)), inserted_db now input db).
Proof.
  intros Hv Hfree. unfold createBooking. rewrite Hv.
  unfold createBooking_transaction, db_transaction, createBooking_body,
    createBooking_body_on,
    createBooking_run.
  rewrite Hfree. cbn [lastInsertRowid].
  unfold getBookingById_get. cbn [bookings].
  change (mkBooking (next_rowid db) (Input.date input)
            (or_null (Input.employee_name input))
            (or_null (Input.employee_email input)) now)
    with (inserted_row now input db).
  change (next_rowid db) with (id (inserted_row now input db)) at 1.
  rewrite find_by_id_appended; [reflexivity |].
  cbn [id inserted_row]. unfold next_rowid. lia.
Qed.

(** A valid date that is taken: the uniqueness violation is translated and
    the table stays as it was. *)
Lemma createBooking_taken :
  isValidDateFormat (Input.date input) = Return true ->
  existsb (has_date (Input.date input)) (bookings db) = true ->
  createBooking now input db
  = (Throw (Error (DateAlreadyBooked_message (Input.date input))), db).
Proof.
  intros Hv Htaken. unfold createBooking. rewrite Hv.
  unfold createBooking_transaction, db_transaction, createBooking_body,
    createBooking_body_on,
    createBooking_run.
  rewrite Htaken. reflexivity.
Qed.

(** A date the check answers [false] on. *)
Lemma createBooking_invalid :
  isValidDateFormat (Input.date input) = Return false ->
  createBooking now input db = (Throw (Error InvalidDate_message), db).
Proof. intros Hv. unfold createBooking. now rewrite Hv. Qed.

(** A date the check itself throws on. *)
Lemma createBooking_check_throws (e : JsError) :
  isValidDateFormat (Input.date input) = Throw e ->
  createBooking now input db = (Throw e, db).
Proof. intros Hv. unfold createBooking. now rewrite Hv. Qed.

(** Whenever [createBooking] returns, it is by the first case. *)
Lemma createBooking_Return_inv (r : option Booking) (db' : Database) :
  createBooking now input db = (Return r, db') ->
  isValidDateFormat (Input.date input) = Return true
  /\ existsb (has_date (Input.date input)) (bookings db) = false
  /\ r = Some (inserted_row now input db)
  /\ db' = inserted_db now input db.
Proof.
  intros H.
  destruct (isValidDateFormat (Input.date input)) as [[] |] eqn:Hv.
  - destruct (existsb (has_date (Input.date input)) (bookings db)) eqn:Hx.
    + rewrite (createBooking_taken Hv Hx) in H. discriminate.
    + rewrite (createBooking_fresh Hv Hx) in H. inversion H. auto.
  - rewrite (createBooking_invalid Hv) in H. discriminate.
  - rewrite (createBooking_check_throws _ Hv) in H. discriminate.
Qed.

(** A failed call leaves the collection as it was. *)
Lemma createBooking_Throw_unchanged (e : JsError) (db' : Database) :
  createBooking now input db = (Throw e, db') -> db' = db.
Proof.
  intros H.
  destruct (isValidDateFormat (Input.date input)) as [[] |] eqn:Hv.
  - destruct (existsb (has_date (Input.date input)) (bookings db)) eqn:Hx.
    + rewrite (createBooking_taken Hv Hx) in H. now inversion H.
    + rewrite (createBooking_fresh Hv Hx) in H. discriminate.
  - rewrite (createBooking_invalid Hv) in H. now inversion H.
  - rewrite (createBooking_check_throws _ Hv) in H. now inversion H.
Qed.

End CreateBooking.

(** ** Rejections of [createBooking] *)

(** The four malformed dates of the test suite are answered [false] by the
    check, so the call fails with the format message and stores nothing. *)
Lemma createBooking_rejects_malformed (now : string) (name email : option string)
    (db : Database) (d : string) :
  In d ["2025/12/03"; "12-03-2025"; "not-a-date"; "2025-02-30"] ->
  createBooking now (Input.mk d name email) db
  = (Throw (Error "Date must be in YYYY-MM-DD format"), db).
Proof.
  intros H. apply createBooking_invalid. cbn [Input.date].
  simpl in H. decompose [or] H; subst; try reflexivity. contradiction.
Qed.

(** The check throws exactly on the strings of the right shape that the
    engine parses to an Invalid Date, and then with a [RangeError]. *)
Lemma isValidDateFormat_throws (d : string) (e : JsError) :
  isValidDateFormat d = Throw e <->
  dateRegex_test d = true /\ JsDate.parse JsDate.LocalTZA d = None
  /\ e = RangeError "Invalid time value".
Proof.
  unfold isValidDateFormat, isValidDateFormat_at.
  destruct (dateRegex_test d); cbn [negb].
  - destruct (JsDate.parse JsDate.LocalTZA d) as [t |];
      cbn [JsDate.toISOString].
    + split; [discriminate | intros (_ & ? & _); discriminate].
    + split; [intros H; inversion H; auto | intros (_ & _ & ->); reflexivity].
  - split; [discriminate | intros (? & _); discriminate].
Qed.

(** C3, at the input where the code departs from it: a date of the right
    shape with month 13 does not make [createBooking] fail with the
    format error; the date check itself throws a [RangeError] with the message
    [Invalid time value].  The collection is still left unchanged. *)
Theorem createBooking_month_13_RangeError (now : string)
    (name email : option string) (db : Database) :
  createBooking now (Input.mk "2025-13-01" name email) db
  = (Throw (RangeError "Invalid time value"), db)
  /\ RangeError "Invalid time value" <> Error InvalidDate_message
  /\ message (RangeError "Invalid time value") <> InvalidDate_message.
Proof.
  split; [| split; discriminate].
  apply createBooking_check_throws. reflexivity.
Qed.

(** C4: for a valid date that already has a live booking, [createBooking]
    fails with the error whose message is [Date <d> is already booked], and
    the stored collection is unchanged. *)
Theorem createBooking_duplicate_rejected (now : string)
    (input : CreateBookingInput) (db : Database) :
  isValidDateFormat (Input.date input) = Return true ->
  (exists b, In b (bookings db) /\ date b = Input.date input) ->
  createBooking now input db
  = (Throw (Error ("Date " ++ Input.date input ++ " is already booked")), db).
Proof.
  intros Hv (b & Hin & Hd).
  apply createBooking_taken; [exact Hv |].
  apply existsb_exists. exists b. split; [exact Hin |].
  unfold statements.has_date. now apply String.eqb_eq.
Qed.

Lemma createBooking_duplicate_rejected_witness :
  let db := mkDatabase
              [mkBooking 1 "2025-12-04" (Some "John Doe")
                 (Some "john@example.com") "2025-11-30 09:00:00"] 1 in
  createBooking "2025-11-30 09:00:01"
    (Input.mk "2025-12-04" (Some "Jane Smith") (Some "jane@example.com")) db
  = (Throw (Error "Date 2025-12-04 is already booked"), db).
Proof.
  apply (createBooking_duplicate_rejected "2025-11-30 09:00:01"
           (Input.mk "2025-12-04" (Some "Jane Smith") (Some "jane@example.com"))).
  - vm_compute. reflexivity.
  - exists (mkBooking 1 "2025-12-04" (Some "John Doe") (Some "john@example.com")
              "2025-11-30 09:00:00").
    split; [left; reflexivity | reflexivity].
Defined.

(** ** The POST route *)

Section PostRoute.
Variables (now : string) (name email : option string) (db : Database).

(** Every non-empty date the check answers [false] on is answered with
    500, not 400: the format message does not contain the text the route
    looks for. *)
Lemma post_bookings_invalid_is_500 (d : string) :
  d <> "" ->
  isValidDateFormat d = Return false ->
  Server.post_bookings now (Server.mkBody (Some d) name email) db
  = (Server.mkResponse 500 (Server.JsonError "Failed to create booking"), db).
Proof.
  intros Hne Hv. unfold Server.post_bookings. cbn [Server.date].
  apply String.eqb_neq in Hne. rewrite Hne.
  rewrite createBooking_invalid by exact Hv. reflexivity.
Qed.

(** A taken date is answered with 409 and the message naming the date. *)
Lemma post_bookings_taken_is_409 (d : string) :
  isValidDateFormat d = Return true ->
  existsb (statements.has_date d) (bookings db) = true ->
  Server.post_bookings now (Server.mkBody (Some d) name email) db
  = (Server.mkResponse 409
       (Server.JsonError ("Date " ++ d ++ " is already booked")), db).
Proof.
  intros Hv Htaken. unfold Server.post_bookings. cbn [Server.date].
  pose proof (isValidDateFormat_true_regex _ Hv) as Hre.
  destruct (dateRegex_test_shape _ Hre)
    as (y1 & y2 & y3 & y4 & m1 & m2 & d1 & d2 & Hd & Hdig).
  assert (Hne : (d =? "")%string = false) by (subst d; reflexivity).
  rewrite Hne.
  rewrite createBooking_taken by assumption.
  cbn [Input.date]. unfold Server.post_bookings_catch, message.
  assert (Hno : JsString.includes (DateAlreadyBooked_message d)
                  "Invalid date format" = false).
  { clear Hv Hre Htaken Hne. subst d.
    repeat match goal with
           | H : Forall _ (_ :: _) |- _ => inversion H; subst; clear H
           end.
    repeat match goal with
           | H : JsString.is_digit _ = true |- _ => apply digit_not_I in H
           end.
    apply includes_first_absent. intros x Hx.
    cbn in Hx. decompose [or] Hx; subst; try reflexivity; try assumption.
    contradiction. }
  rewrite Hno.
  assert (Hyes : JsString.includes (DateAlreadyBooked_message d)
                   "already booked" = true).
  { unfold DateAlreadyBooked_message.
    apply includes_app_l, includes_app_l.
    reflexivity. }
  rewrite Hyes. reflexivity.
Qed.

End PostRoute.

(** C5, at the input where the code departs from it: a POST whose date fails
    the format check is answered with status 500 and the generic body, not
    with 400 and the format message. *)
Theorem post_bookings_malformed_date_500 (now : string)
    (name email : option string) (db : Database) :
  createBooking now (Input.mk "2025/12/03" name email) db
  = (Throw (Error "Date must be in YYYY-MM-DD format"), db)
  /\ Server.post_bookings now (Server.mkBody (Some "2025/12/03") name email) db
     = (Server.mkResponse 500 (Server.JsonError "Failed to create booking"), db).
Proof.
  split.
  - apply createBooking_invalid. reflexivity.
  - apply post_bookings_invalid_is_500; [discriminate | reflexivity].
Qed.

(** ** [deleteBooking] *)

Section Delete.
Import statements.

Lemma removed_count (d : string) (l : list Booking) :
  Z.of_nat (List.length l)
  - Z.of_nat (List.length (filter (fun b => negb (has_date d b)) l))
  = Z.of_nat (List.length (filter (has_date d) l)).
Proof.
  induction l as [| c l IH]; cbn [filter]; [reflexivity |].
  destruct (has_date d c); cbn [negb List.length];
    rewrite ?Nat2Z.inj_succ; lia.
Qed.

Lemma deleteBooking_eq (d : string) (db : Database) :
  deleteBooking d db
  = (existsb (has_date d) (bookings db),
     mkDatabase (filter (fun b => negb (has_date d b)) (bookings db))
                (sqlite_sequence db)).
Proof.
  unfold deleteBooking, deleteBooking_run. cbv zeta.
  rewrite removed_count, live_count_existsb. unfold live_count.
  f_equal.
  destruct (filter (has_date d) (bookings db)); simpl; [reflexivity |].
  apply Z.ltb_lt. lia.
Qed.

Lemma deleteBooking_absent (d : string) (db : Database) :
  existsb (has_date d) (bookings db) = false ->
  deleteBooking d db = (false, db).
Proof.
  intros H. rewrite deleteBooking_eq, H, filter_keep_all by exact H.
  now destruct db.
Qed.

Lemma existsb_has_date (d : string) (l : list Booking) :
  existsb (has_date d) l = true <-> exists b, In b l /\ date b = d.
Proof.
  rewrite existsb_exists. unfold has_date.
  split; intros (b & Hin & H); exists b; split; auto; now apply String.eqb_eq.
Qed.

Lemma find_has_date_none (d : string) (l : list Booking) :
  existsb (has_date d) l = false -> find (has_date d) l = None.
Proof.
  induction l as [| c l IH]; simpl; [reflexivity |].
  intros H. apply orb_false_elim in H as [Hc Hl]. rewrite Hc. auto.
Qed.

Lemma deleteBooking_live (d : string) (db : Database) :
  existsb (has_date d) (bookings db) = true ->
  fst (deleteBooking d db) = true
  /\ getBookingByDate d (snd (deleteBooking d db)) = None
  /\ (forall b, In b (bookings (snd (deleteBooking d db)))
                <-> In b (bookings db) /\ date b <> d)
  /\ deleteBooking d (snd (deleteBooking d db))
     = (false, snd (deleteBooking d db)).
Proof.
  intros Hex. rewrite deleteBooking_eq. cbn [fst snd].
  split; [exact Hex |]. split; [| split].
  - apply find_has_date_none. apply existsb_after_delete.
  - intros b. cbn [bookings]. rewrite filter_In.
    unfold has_date.
    destruct (String.eqb_spec (date b) d); simpl; intuition congruence.
  - apply deleteBooking_absent. apply existsb_after_delete.
Qed.

End Delete.

(** C6: [deleteBooking d] answers [true] and removes the booking of date
    [d] (every other row stays) when one exists; it answers [false] and
    leaves the collection as it was when none exists; and a second call right
    after the first always answers [false] and changes nothing. *)
Theorem deleteBooking_semantics (d : string) (db : Database) :
  ((exists b, In b (bookings db) /\ date b = d) ->
   fst (deleteBooking d db) = true
   /\ getBookingByDate d (snd (deleteBooking d db)) = None
   /\ (forall b, In b (bookings (snd (deleteBooking d db)))
                 <-> In b (bookings db) /\ date b <> d)
   /\ deleteBooking d (snd (deleteBooking d db))
      = (false, snd (deleteBooking d db)))
  /\ ((forall b, In b (bookings db) -> date b <> d) ->
      deleteBooking d db = (false, db)).
Proof.
  split.
  - intros Hex. apply existsb_has_date in Hex. now apply deleteBooking_live.
  - intros Hno. apply deleteBooking_absent.
    destruct (existsb (statements.has_date d) (bookings db)) eqn:E; [| reflexivity].
    apply existsb_has_date in E as (b & Hin & Hd). now elim (Hno b Hin).
Qed.

Lemma deleteBooking_semantics_witness :
  let db := mkDatabase
              [mkBooking 1 "2025-12-12" None None "2025-11-30 09:00:00"] 1 in
  fst (deleteBooking "2025-12-12" db) = true
  /\ deleteBooking "2025-12-12" (snd (deleteBooking "2025-12-12" db))
     = (false, snd (deleteBooking "2025-12-12" db))
  /\ deleteBooking "2099-12-31" db = (false, db).
Proof.
  intros db.
  destruct (deleteBooking_semantics "2025-12-12" db) as [Hlive _].
  destruct (deleteBooking_semantics "2099-12-31" db) as [_ Hnone].
  destruct Hlive as (H1 & _ & _ & H2).
  { exists (mkBooking 1 "2025-12-12" None None "2025-11-30 09:00:00").
    split; [left; reflexivity | reflexivity]. }
  split; [exact H1 | split; [exact H2 |]].
  apply Hnone. intros b Hb. destruct Hb as [Hb | []]. subst b.
  cbn [date]. discriminate.
Defined.

(** ** [getAllBookings] *)

Section Ordering.
Import statements.

Lemma string_leb_trans (a b c : string) :
  String.leb a b = true -> String.leb b c = true -> String.leb a c = true.
Proof.
  revert b c. unfold String.leb.
  induction a as [| x a IH]; intros [| y b] [| z c]; simpl;
    try reflexivity; try discriminate.
  unfold Ascii.compare.
  destruct (N.compare_spec (N_of_ascii x) (N_of_ascii y));
    destruct (N.compare_spec (N_of_ascii y) (N_of_ascii z));
    destruct (N.compare_spec (N_of_ascii x) (N_of_ascii z));
    try lia; try discriminate; try reflexivity.
  apply IH.
Qed.

Lemma date_le_trans (a b c : Booking) : date_le a b -> date_le b c -> date_le a c.
Proof. apply string_leb_trans. Qed.

Lemma insert_by_date_perm (b : Booking) (l : list Booking) :
  Permutation (b :: l) (insert_by_date b l).
Proof.
  induction l as [| c l IH]; simpl; [reflexivity |].
  destruct (String.leb (date b) (date c)); [reflexivity |].
  rewrite perm_swap. now apply perm_skip.
Qed.

Lemma order_by_date_perm (l : list Booking) : Permutation l (order_by_date l).
Proof.
  induction l as [| b l IH]; simpl; [constructor |].
  rewrite <- insert_by_date_perm. now apply perm_skip.
Qed.

Lemma insert_by_date_sorted (b : Booking) (l : list Booking) :
  StronglySorted date_le l -> StronglySorted date_le (insert_by_date b l).
Proof.
  induction 1 as [| c l Hs IH Hc]; simpl.
  - repeat constructor.
  - destruct (String.leb (date b) (date c)) eqn:E.
    + constructor; [constructor; assumption |].
      constructor; [exact E |].
      eapply Forall_impl; [| exact Hc].
      intros x Hx. eapply date_le_trans; [exact E | exact Hx].
    + constructor; [exact IH |].
      eapply Permutation_Forall; [apply insert_by_date_perm |].
      constructor; [| exact Hc].
      destruct (String.leb_total (date b) (date c)) as [F | F];
        [congruence | exact F].
Qed.

Lemma order_by_date_sorted (l : list Booking) :
  StronglySorted date_le (order_by_date l).
Proof.
  induction l as [| b l IH]; simpl; [constructor |].
  now apply insert_by_date_sorted.
Qed.

End Ordering.

(** C7: [getAllBookings] returns exactly the stored bookings (each as often
    as it is stored), in ascending order of date, and the empty sequence for
    the empty collection; as an operation of the ledger it leaves the
    collection unchanged.  After creating bookings for 2025-12-10, 2025-12-08
    and 2025-12-09 in that order on the empty collection, the dates come back
    as 2025-12-08, 2025-12-09, 2025-12-10. *)
Theorem getAllBookings_ordered :
  (forall db : Database,
      Permutation (bookings db) (getAllBookings db)
      /\ StronglySorted date_le (getAllBookings db)
      /\ apply_op OpListOrdered db = db)
  /\ getAllBookings emptyDatabase = []
  /\ (forall t1 t2 t3 : string,
        let db1 := snd (createBooking t1 (Input.mk "2025-12-10" None None) emptyDatabase) in
        let db2 := snd (createBooking t2 (Input.mk "2025-12-08" None None) db1) in
        let db3 := snd (createBooking t3 (Input.mk "2025-12-09" None None) db2) in
        map date (getAllBookings db3) = ["2025-12-08"; "2025-12-09"; "2025-12-10"]
        /\ List.length (bookings db3) = 3%nat).
Proof.
  split; [| split].
  - intros db. unfold getAllBookings, statements.getAllBookings_all.
    split; [apply order_by_date_perm |].
    split; [apply order_by_date_sorted | reflexivity].
  - reflexivity.
  - intros t1 t2 t3. split; reflexivity.
Qed.

(** ** What a successful [createBooking] returns *)

Section Created.
Import statements.
Variables (now : string) (input : CreateBookingInput) (db : Database).

Lemma inserted_row_stored :
  existsb (has_date (Input.date input)) (bookings db) = false ->
  getBookingByDate (Input.date input) (inserted_db now input db)
  = Some (inserted_row now input db).
Proof.
  intros Hfree. unfold getBookingByDate, getBookingByDate_get.
  cbn [bookings inserted_db].
  change (Input.date input) with (date (inserted_row now input db)) at 1.
  now apply find_by_date_appended.
Qed.

Lemma inserted_row_newest (c : Booking) :
  In c (bookings db) -> id c < id (inserted_row now input db).
Proof.
  intros Hin. apply max_rowid_ge in Hin.
  cbn [id inserted_row]. unfold next_rowid. lia.
Qed.

End Created.

(** C8: on a table whose identifiers are below [MAX_SAFE_INTEGER], the
    value a successful [createBooking] returns is the row it stored, with the identifier the storage assigned (larger than every
    identifier in the table and than every one given out before) and the
    timestamp of the insertion; a name or email omitted from the input is
    null in it, and one that is given and not empty is kept. *)
Theorem createBooking_defaults (now : string) (input : CreateBookingInput)
    (db db' : Database) (r : option Booking) :
  ids_safe db ->
  createBooking now input db = (Return r, db') ->
  exists b,
    r = Some b
    /\ getBookingByDate (Input.date input) db' = Some b
    /\ In b (bookings db')
    /\ date b = Input.date input
    /\ id b = sqlite_sequence db'
    /\ id b <= MAX_SAFE_INTEGER
    /\ sqlite_sequence db < id b
    /\ (forall c, In c (bookings db) -> id c < id b)
    /\ created_at b = now
    /\ (Input.employee_name input = None -> employee_name b = None)
    /\ (Input.employee_email input = None -> employee_email b = None)
    /\ (forall s, Input.employee_name input = Some s -> s <> "" ->
                  employee_name b = Some s)
    /\ (forall s, Input.employee_email input = Some s -> s <> "" ->
                  employee_email b = Some s).
Proof.
  intros Hsafe H.
  apply createBooking_Return_inv in H as (Hv & Hfree & -> & ->).
  exists (inserted_row now input db).
  split; [reflexivity |].
  split; [now apply inserted_row_stored |].
  split; [cbn [bookings inserted_db]; apply in_or_app; right; now left |].
  split; [reflexivity |]. split; [reflexivity |].
  split; [cbn [id inserted_row]; now apply ids_safe_next_rowid |].
  split; [cbn [id inserted_row]; unfold statements.next_rowid; lia |].
  split; [apply inserted_row_newest |].
  split; [reflexivity |].
  cbn [employee_name employee_email inserted_row].
  repeat split.
  - now intros ->.
  - now intros ->.
  - intros s -> Hs. simpl. apply String.eqb_neq in Hs. now rewrite Hs.
  - intros s -> Hs. simpl. apply String.eqb_neq in Hs. now rewrite Hs.
Qed.

Lemma createBooking_defaults_witness :
  exists b,
    createBooking "2025-11-30 09:00:00" (Input.mk "2025-12-02" None None)
      emptyDatabase
    = (Return (Some b), mkDatabase [b] 1)
    /\ employee_name b = None /\ employee_email b = None
    /\ id b = 1 /\ created_at b = "2025-11-30 09:00:00".
Proof.
  assert (Hrun : createBooking "2025-11-30 09:00:00"
                   (Input.mk "2025-12-02" None None) emptyDatabase
                 = (Return (Some (mkBooking 1 "2025-12-02" None None
                                    "2025-11-30 09:00:00")),
                    mkDatabase [mkBooking 1 "2025-12-02" None None
                                  "2025-11-30 09:00:00"] 1))
    by (vm_compute; reflexivity).
  assert (Hsafe : ids_safe emptyDatabase)
    by (split; [reflexivity | constructor]).
  destruct (createBooking_defaults _ _ _ _ _ Hsafe Hrun)
    as (b & Hr & _ & _ & _ & Hid & _ & _ & _ & Hnow & Hname & Hemail & _).
  exists b. inversion Hr; subst b.
  split; [exact Hrun |].
  split; [now apply Hname |]. split; [now apply Hemail |].
  split; [exact Hid | exact Hnow].
Defined.

(** C10: on a table whose identifiers are below [MAX_SAFE_INTEGER], a name
    or email that is given as the empty string is stored, and returned, as
    null. *)
Theorem createBooking_empty_string_null (now : string)
    (input : CreateBookingInput) (db db' : Database) (r : option Booking) :
  ids_safe db ->
  createBooking now input db = (Return r, db') ->
  exists b,
    r = Some b
    /\ getBookingByDate (Input.date input) db' = Some b
    /\ (Input.employee_name input = Some "" -> employee_name b = None)
    /\ (Input.employee_email input = Some "" -> employee_email b = None).
Proof.
  intros Hsafe H.
  apply createBooking_Return_inv in H as (Hv & Hfree & -> & ->).
  exists (inserted_row now input db).
  split; [reflexivity |].
  split; [now apply inserted_row_stored |].
  cbn [employee_name employee_email inserted_row].
  split; now intros ->.
Qed.

Lemma createBooking_empty_string_null_witness :
  exists b,
    createBooking "2025-11-30 09:00:00"
      (Input.mk "2025-12-02" (Some "") (Some "")) emptyDatabase
    = (Return (Some b), mkDatabase [b] 1)
    /\ employee_name b = None /\ employee_email b = None.
Proof.
  assert (Hrun : createBooking "2025-11-30 09:00:00"
                   (Input.mk "2025-12-02" (Some "") (Some "")) emptyDatabase
                 = (Return (Some (mkBooking 1 "2025-12-02" None None
                                    "2025-11-30 09:00:00")),
                    mkDatabase [mkBooking 1 "2025-12-02" None None
                                  "2025-11-30 09:00:00"] 1))
    by (vm_compute; reflexivity).
  assert (Hsafe : ids_safe emptyDatabase)
    by (split; [reflexivity | constructor]).
  destruct (createBooking_empty_string_null _ _ _ _ _ Hsafe Hrun)
    as (b & Hr & _ & Hname & Hemail).
  exists b. inversion Hr; subst b.
  split; [exact Hrun |]. split; [now apply Hname | now apply Hemail].
Defined.

(** C9: on a table whose identifiers are below [MAX_SAFE_INTEGER], the
    booking a successful [createBooking] returns is what
    [getBookingByDate] finds right afterwards; [deleteBooking] of its date
    then answers [true], after which [getBookingByDate] finds nothing for the
    date and [getAllBookings] lists neither that booking nor any other of
    that date. *)
Theorem create_get_delete_round_trip (now : string)
    (input : CreateBookingInput) (db db' : Database) (r : option Booking) :
  ids_safe db ->
  createBooking now input db = (Return r, db') ->
  exists b,
    r = Some b
    /\ getBookingByDate (Input.date input) db' = Some b
    /\ fst (deleteBooking (Input.date input) db') = true
    /\ getBookingByDate (Input.date input)
         (snd (deleteBooking (Input.date input) db')) = None
    /\ ~ In b (getAllBookings (snd (deleteBooking (Input.date input) db')))
    /\ (forall c, In c (getAllBookings (snd (deleteBooking (Input.date input) db')))
                  -> date c <> Input.date input).
Proof.
  intros Hsafe H.
  apply createBooking_Return_inv in H as (Hv & Hfree & -> & ->).
  exists (inserted_row now input db).
  split; [reflexivity |].
  split; [now apply inserted_row_stored |].
  destruct (deleteBooking_live (Input.date input) (inserted_db now input db))
    as (Htrue & Hget & Hrows & _).
  { apply existsb_has_date. exists (inserted_row now input db).
    split; [| reflexivity].
    cbn [bookings inserted_db]. apply in_or_app. right. now left. }
  split; [exact Htrue |]. split; [exact Hget |].
  assert (Hlist : forall c,
             In c (getAllBookings
                     (snd (deleteBooking (Input.date input)
                             (inserted_db now input db)))) ->
             date c <> Input.date input).
  { intros c Hc. unfold getAllBookings, statements.getAllBookings_all in Hc.
    eapply Permutation_in in Hc;
      [| apply Permutation_sym, order_by_date_perm].
    now apply Hrows in Hc. }
  split; [| exact Hlist].
  intros Hin. now apply Hlist in Hin.
Qed.

Lemma create_get_delete_round_trip_witness :
  let input := Input.mk "2025-12-11" (Some "Test User") (Some "test@example.com") in
  let row := mkBooking 1 "2025-12-11" (Some "Test User")
               (Some "test@example.com") "2025-11-30 09:00:00" in
  let db' := mkDatabase [row] 1 in
  createBooking "2025-11-30 09:00:00" input emptyDatabase = (Return (Some row), db')
  /\ getBookingByDate "2025-12-11" db' = Some row
  /\ getBookingByDate "2025-12-11" (snd (deleteBooking "2025-12-11" db')) = None.
Proof.
  intros input row db'.
  assert (Hrun : createBooking "2025-11-30 09:00:00" input emptyDatabase
                 = (Return (Some row), db'))
    by (vm_compute; reflexivity).
  assert (Hsafe : ids_safe emptyDatabase)
    by (split; [reflexivity | constructor]).
  destruct (create_get_delete_round_trip _ _ _ _ _ Hsafe Hrun)
    as (b & Hr & Hget & _ & Hgone & _).
  inversion Hr; subst b.
  split; [exact Hrun |]. split; [exact Hget | exact Hgone].
Defined.

(** ** One live booking per date *)

Section Uniqueness.
Import statements.

Lemma live_count_inserted (now : string) (input : CreateBookingInput)
    (db : Database) (d : string) :
  live_count d (inserted_db now input db)
  = (live_count d db
     + if (Input.date input =? d)%string then 1 else 0)%nat.
Proof.
  unfold live_count. cbn [bookings inserted_db].
  rewrite filter_app, length_app. f_equal.
  cbn [filter]. unfold has_date at 1. cbn [date inserted_row].
  now destruct (Input.date input =? d)%string.
Qed.

Lemma live_count_deleted (d e : string) (db : Database) :
  (live_count e (snd (deleteBooking d db)) <= live_count e db)%nat.
Proof.
  rewrite deleteBooking_eq. unfold live_count. cbn [snd bookings].
  induction (bookings db) as [| c l IH]; simpl; [lia |].
  destruct (has_date d c); simpl; destruct (has_date e c); simpl; lia.
Qed.

Lemma createBooking_state (now : string) (input : CreateBookingInput)
    (db : Database) :
  snd (createBooking now input db) = db
  \/ (existsb (has_date (Input.date input)) (bookings db) = false
      /\ snd (createBooking now input db) = inserted_db now input db).
Proof.
  destruct (createBooking now input db) as [[r | e] db'] eqn:H.
  - apply createBooking_Return_inv in H as (_ & Hfree & _ & ->). now right.
  - apply createBooking_Throw_unchanged in H. now left.
Qed.

Lemma apply_op_unique (op : LedgerOp) (db : Database) :
  unique_dates db -> unique_dates (apply_op op db).
Proof.
  intros Hu. destruct op as [now input | d | d |]; cbn [apply_op]; try exact Hu.
  - destruct (createBooking_state now input db) as [-> | [Hfree ->]];
      [exact Hu |].
    intros d. rewrite live_count_inserted.
    destruct (String.eqb_spec (Input.date input) d) as [<- |].
    + apply live_count_zero in Hfree. lia.
    + specialize (Hu d). lia.
  - intros e. specialize (Hu e).
    pose proof (live_count_deleted d e db). lia.
Qed.

Lemma history_unique (ops : list LedgerOp) (db : Database) :
  unique_dates db -> Forall unique_dates (history ops db).
Proof.
  revert db. induction ops as [| op ops IH]; intros db Hu; simpl.
  - constructor; [exact Hu | constructor].
  - constructor; [exact Hu |]. apply IH. now apply apply_op_unique.
Qed.

End Uniqueness.

(** C1: along every sequence of ledger operations started on the empty
    collection, every state the collection goes through holds at most one
    live booking for every date. *)
Theorem uniqueness_invariant (ops : list LedgerOp) (d : string) :
  Forall (fun db => (live_count d db <= 1)%nat) (history ops emptyDatabase).
Proof.
  eapply Forall_impl; [| apply (history_unique ops emptyDatabase)].
  - intros db Hu. apply Hu.
  - intros e. unfold live_count. simpl. lia.
Qed.

(** ** Racing calls for one date *)

Section RaceProofs.
Import Concurrent Race statements.
Variable d : string.
Hypothesis d_valid : isValidDateFormat d = Return true.

Lemma winners_app (a b : list Call) :
  winners (a ++ b) = (winners a + winners b)%nat.
Proof. unfold winners. now rewrite filter_app, length_app. Qed.

Lemma step_call_input (c : Call) (db : Database) :
  call_input (fst (step_call c db)) = call_input c.
Proof.
  destruct c as [now input | now input | input r]; simpl; try reflexivity.
  - now destruct (isValidDateFormat (Input.date input)) as [[] |].
  - now destruct (createBooking_transaction now input db).
Qed.

(** Where a step changes the pool: at one call, by [step_call]. *)
Lemma step_at_split (i : nat) (pool : list Call) (db : Database) :
  step_at i pool db = (pool, db)
  \/ exists pre c post,
       pool = (pre ++ c :: post)%list
       /\ step_at i pool db
          = ((pre ++ fst (step_call c db) :: post)%list, snd (step_call c db)).
Proof.
  revert i. induction pool as [| c rest IH]; intros [| j]; simpl;
    try (now left).
  - right. exists [], c, rest. split; [reflexivity |].
    now destruct (step_call c db).
  - destruct (IH j) as [E | (pre & x & post & -> & E)]; rewrite E.
    + now left.
    + right. exists (c :: pre), x, post. split; reflexivity.
Qed.

Lemma transaction_is_createBooking (now : string) (input : CreateBookingInput)
    (db : Database) :
  Input.date input = d ->
  createBooking_transaction now input db = createBooking now input db.
Proof. intros E. unfold createBooking. now rewrite E, d_valid. Qed.

Lemma call_ok_running (db db' : Database) (c : Call) :
  is_finished c = false -> call_ok d db c -> call_ok d db' c.
Proof. destruct c; simpl; [tauto | tauto | discriminate]. Qed.

Lemma call_ok_free (db : Database) (c : Call) :
  live_count d db = 0%nat -> call_ok d db c -> is_finished c = false.
Proof.
  intros Hfree [_ H]. destruct c as [| | input [r | e]]; try reflexivity; exfalso.
  - destruct H as (b & _ & _ & Hb). unfold live_count in Hfree.
    rewrite Hb in Hfree. discriminate.
  - destruct H as [_ H]. lia.
Qed.


(** One step of one call keeps the invariant of the pool. *)
Lemma step_call_preserves (pre post : list Call) (c : Call) (db : Database) :
  pool_inv d (pre ++ c :: post) db ->
  pool_inv d (pre ++ fst (step_call c db) :: post) (snd (step_call c db)).
Proof.
  intros (Hall & Hwin & Hle).
  apply Forall_app in Hall as [Hpre Hrest].
  inversion Hrest as [| ? ? Hc Hpost]; subst.
  rewrite winners_app in Hwin. change (c :: post) with ([c] ++ post)%list in Hwin.
  rewrite winners_app in Hwin.
  destruct c as [now input | now input | input r].
  - (* the date check *)
    destruct Hc as [Hd _]. cbn [call_input] in Hd.
    cbn [step_call]. rewrite Hd, d_valid. cbn [fst snd].
    split; [| split; [| exact Hle]].
    + apply Forall_app. split; [exact Hpre |].
      constructor; [split; [exact Hd | exact I] | exact Hpost].
    + rewrite winners_app. change (Checked now input :: post)
        with ([Checked now input] ++ post)%list.
      now rewrite winners_app.
  - (* the transaction *)
    destruct Hc as [Hd _]. cbn [call_input] in Hd.
    cbn [step_call]. rewrite (transaction_is_createBooking now input db Hd).
    destruct (existsb (has_date (Input.date input)) (bookings db)) eqn:Hx.
    + (* taken *)
      rewrite createBooking_taken
        by (first [exact Hx | rewrite Hd; exact d_valid]).
      cbn [fst snd].
      assert (Hone : live_count d db = 1%nat).
      { rewrite Hd in Hx. rewrite live_count_existsb in Hx.
        destruct (Nat.eqb_spec (live_count d db) 0); [discriminate | lia]. }
      split; [| split; [| exact Hle]].
      * apply Forall_app. split; [exact Hpre |].
        constructor; [| exact Hpost].
        split; [exact Hd |]. rewrite Hd. now split.
      * rewrite winners_app.
        change (Finished input (Throw (Error (DateAlreadyBooked_message (Input.date input)))) :: post)
          with ([Finished input (Throw (Error (DateAlreadyBooked_message (Input.date input))))] ++ post)%list.
        now rewrite winners_app.
    + (* free *)
      rewrite createBooking_fresh
        by (first [exact Hx | rewrite Hd; exact d_valid]).
      cbn [fst snd].
      assert (Hzero : live_count d db = 0%nat).
      { apply live_count_zero. now rewrite <- Hd. }
      assert (Hnew : filter (has_date d) (bookings (inserted_db now input db))
                     = [inserted_row now input db]).
      { cbn [bookings inserted_db]. rewrite filter_app.
        rewrite filter_none by (rewrite <- Hd; exact Hx).
        cbn [filter app]. unfold has_date at 1. cbn [date inserted_row].
        rewrite Hd, String.eqb_refl. reflexivity. }
      assert (Hcount : live_count d (inserted_db now input db) = 1%nat).
      { unfold live_count. now rewrite Hnew. }
      assert (Hrun : forall l, Forall (call_ok d db) l ->
                 Forall (call_ok d (inserted_db now input db)) l
                 /\ winners l = 0%nat).
      { induction 1 as [| x l Hx0 _ [IH1 IH2]]; [split; [constructor | reflexivity] |].
        pose proof (call_ok_free db x Hzero Hx0) as Hnf.
        split.
        - constructor; [now apply (call_ok_running db) | exact IH1].
        - unfold winners in *. cbn [filter].
          destruct x as [| | ? []]; try discriminate; exact IH2. }
      destruct (Hrun pre Hpre) as [Hpre' Wpre].
      destruct (Hrun post Hpost) as [Hpost' Wpost].
      split; [| split; [| lia]].
      * apply Forall_app. split; [exact Hpre' |].
        constructor; [| exact Hpost'].
        split; [exact Hd |].
        exists (inserted_row now input db).
        split; [reflexivity |]. split; [| exact Hnew].
        repeat split.
      * rewrite winners_app.
        change (Finished input (Return (Some (inserted_row now input db))) :: post)
          with ([Finished input (Return (Some (inserted_row now input db)))] ++ post)%list.
        rewrite winners_app, Wpre, Wpost, Hcount. reflexivity.
  - (* already finished *)
    cbn [step_call fst snd].
    split; [| split; [| exact Hle]].
    + apply Forall_app. split; [exact Hpre | now constructor].
    + rewrite winners_app. change (Finished input r :: post)
        with ([Finished input r] ++ post)%list.
      now rewrite winners_app.
Qed.

Lemma step_at_preserves (i : nat) (pool : list Call) (db : Database) :
  pool_inv d pool db ->
  pool_inv d (fst (step_at i pool db)) (snd (step_at i pool db))
  /\ map call_input (fst (step_at i pool db)) = map call_input pool.
Proof.
  intros Hinv.
  destruct (step_at_split i pool db) as [E | (pre & c & post & -> & E)];
    rewrite E; cbn [fst snd]; [now split |].
  split; [now apply step_call_preserves |].
  rewrite !map_app. cbn [map]. now rewrite step_call_input.
Qed.

Lemma run_preserves (schedule : list nat) (pool : list Call) (db : Database) :
  pool_inv d pool db ->
  pool_inv d (fst (run schedule pool db)) (snd (run schedule pool db))
  /\ map call_input (fst (run schedule pool db)) = map call_input pool.
Proof.
  revert pool db. induction schedule as [| i rest IH]; intros pool db Hinv.
  - now split.
  - cbn [run]. destruct (step_at_preserves i pool db Hinv) as [Hinv' Hin'].
    destruct (step_at i pool db) as [pool' db']. cbn [fst snd] in *.
    destruct (IH pool' db' Hinv') as [Hfin Hmap].
    split; [exact Hfin | congruence].
Qed.

Lemma start_inv (calls : list (string * CreateBookingInput)) (db : Database) :
  Forall (fun c => Input.date (snd c) = d) calls ->
  live_count d db = 0%nat ->
  pool_inv d (start calls) db.
Proof.
  intros Hd Hfree. unfold pool_inv. rewrite Hfree.
  split; [| split; [| lia]].
  - unfold start. apply Forall_map.
    eapply Forall_impl; [| exact Hd]. intros [now input] H. now split.
  - unfold winners, start. induction calls as [| c l IH]; [reflexivity |].
    inversion Hd; subst. cbn [map filter is_winner]. now apply IH.
Qed.


End RaceProofs.



(** * Further properties of the ledger *)

(** ** Decimal digits *)

Section Digits.
Import JsString.

Lemma digit_cases (k : Z) :
  0 <= k <= 9 ->
  k = 0 \/ k = 1 \/ k = 2 \/ k = 3 \/ k = 4 \/ k = 5 \/ k = 6 \/ k = 7
  \/ k = 8 \/ k = 9.
Proof. lia. Qed.

Lemma digit_char_is_digit (k : Z) :
  0 <= k <= 9 -> is_digit (digit_char k) = true.
Proof.
  intros H. destruct (digit_cases k H) as [-> | [-> | [-> | [-> | [-> | [-> |
    [-> | [-> | [-> | ->]]]]]]]]]; reflexivity.
Qed.

Lemma digit_value_char (k : Z) :
  0 <= k <= 9 -> digit_value (digit_char k) = k.
Proof.
  intros H. destruct (digit_cases k H) as [-> | [-> | [-> | [-> | [-> | [-> |
    [-> | [-> | [-> | ->]]]]]]]]]; reflexivity.
Qed.

Lemma digit_char_value (c : ascii) :
  is_digit c = true -> digit_char (digit_value c) = c /\ 0 <= digit_value c <= 9.
Proof.
  destruct c as [[] [] [] [] [] [] [] []]; vm_compute;
    intuition congruence.
Qed.

Lemma string_length_app (a b : string) :
  String.length (a ++ b) = (String.length a + String.length b)%nat.
Proof. induction a as [| c a IH]; cbn; [reflexivity | now rewrite IH]. Qed.

Lemma padded_length (w : nat) (n : Z) : String.length (padded w n) = w.
Proof.
  revert n. induction w as [| w IH]; intros n; [reflexivity |].
  cbn [padded]. rewrite string_length_app, IH. cbn. lia.
Qed.

Lemma digits_value_app (acc : Z) (a b : string) :
  digits_value acc (a ++ b) = digits_value (digits_value acc a) b.
Proof.
  revert acc. induction a as [| c a IH]; intros acc; cbn; [reflexivity |].
  apply IH.
Qed.

(** Reading back the digits of a number gives the number. *)
Lemma digits_value_padded (w : nat) (n : Z) :
  0 <= n < 10 ^ Z.of_nat w -> digits_value 0 (padded w n) = n.
Proof.
  revert n. induction w as [| w IH]; intros n Hn.
  - cbn in *. lia.
  - cbn [padded]. rewrite digits_value_app, IH.
    + cbn [digits_value]. rewrite digit_value_char.
      * pose proof (Z.div_mod n 10). lia.
      * pose proof (Z.mod_pos_bound n 10). lia.
    + rewrite Nat2Z.inj_succ, Z.pow_succ_r in Hn by lia.
      split; [apply Z.div_pos; lia | apply Z.div_lt_upper_bound; lia].
Qed.

Lemma padded_inj (w : nat) (a b : Z) :
  0 <= a < 10 ^ Z.of_nat w -> 0 <= b < 10 ^ Z.of_nat w ->
  padded w a = padded w b -> a = b.
Proof.
  intros Ha Hb E.
  rewrite <- (digits_value_padded w a Ha), <- (digits_value_padded w b Hb).
  now rewrite E.
Qed.

End Digits.

(** ** The calendar arithmetic of [Date] *)

Section Calendar.
Import JsDate.

Lemma DayFromYear_succ (y : Z) :
  DayFromYear (y + 1) = DayFromYear y + DaysInYear y.
Proof.
  unfold DayFromYear, DaysInYear, isLeap.
  destruct (Z.eqb_spec (y mod 4) 0), (Z.eqb_spec (y mod 100) 0),
    (Z.eqb_spec (y mod 400) 0); cbn [negb andb orb];
    Z.div_mod_to_equations; lia.
Qed.

Lemma DayFromYear_mono (y z : Z) : y <= z -> DayFromYear y <= DayFromYear z.
Proof. unfold DayFromYear. intros H. Z.div_mod_to_equations. lia. Qed.

Lemma YearFromTime_unique (t y : Z) :
  DayFromYear y <= Day t < DayFromYear (y + 1) -> YearFromTime t = y.
Proof.
  intros Hy. pose proof (YearFromTime_spec t) as HY.
  destruct (Z.lt_trichotomy (YearFromTime t) y) as [Hlt | [Heq | Hgt]];
    [| exact Heq |].
  - pose proof (DayFromYear_mono (YearFromTime t + 1) y). lia.
  - pose proof (DayFromYear_mono (y + 1) (YearFromTime t)). lia.
Qed.

Lemma in_range (lo len : nat) (k : Z) :
  Z.of_nat lo <= k < Z.of_nat lo + Z.of_nat len ->
  In k (map Z.of_nat (seq lo len)).
Proof.
  intros H. replace k with (Z.of_nat (Z.to_nat k)) by lia.
  apply in_map, in_seq. lia.
Qed.

(** Month and day of the month of the [d]-th day counted from the first of
    month [m], for every month, both kinds of year and every [d] up to 31. *)
Lemma month_table :
  forallb (fun leap =>
    forallb (fun m =>
      forallb (fun d =>
        let k := daysBeforeMonth leap (m - 1) + d - 1 in
        let M := month_search 11 leap 0 k in
        let dim := daysInMonthOf leap m in
        (0 <=? k) && (k <? (if leap then 366 else 365))
        && (M + 1 =? (if d <=? dim then m else m + 1))
        && (k - daysBeforeMonth leap M + 1 =? (if d <=? dim then d else d - dim)))
        (map Z.of_nat (seq 1 31)))
      (map Z.of_nat (seq 1 12)))
    [true; false] = true.
Proof. vm_compute. reflexivity. Qed.

Lemma daysInMonth_bounds (y m : Z) :
  1 <= m <= 12 -> 28 <= daysInMonth y m <= 31.
Proof.
  intros Hm. unfold daysInMonth, daysInMonthOf.
  assert (Hc : In m (map Z.of_nat (seq 1 12))) by (apply in_range; lia).
  cbn in Hc. destruct (isLeap y);
    decompose [or] Hc; subst; try lia; contradiction.
Qed.

(** The calendar date of the time value [new Date] builds from year [y],
    month [m] and day [d]: the date itself when the month has a day [d], and
    otherwise the day that many days after the end of the month, which is in
    the next month of the same year. *)
Lemma civil_of_time (y m d : Z) :
  1 <= m <= 12 -> 1 <= d <= 31 ->
  let t := MakeDate (MakeDay y (m - 1) d) 0 in
  YearFromTime t = y
  /\ MonthFromTime t + 1 = (if d <=? daysInMonth y m then m else m + 1)
  /\ DateFromTime t = (if d <=? daysInMonth y m then d else d - daysInMonth y m).
Proof.
  intros Hm Hd t.
  pose proof month_table as T.
  rewrite forallb_forall in T. specialize (T (isLeap y)).
  assert (Hleap : In (isLeap y) [true; false])
    by (destruct (isLeap y); cbn; auto).
  specialize (T Hleap). rewrite forallb_forall in T.
  specialize (T m (in_range 1 12 m ltac:(lia))).
  rewrite forallb_forall in T.
  specialize (T d (in_range 1 31 d ltac:(lia))).
  cbv zeta in T.
  apply andb_prop in T as [T HD]. apply andb_prop in T as [T HM].
  apply andb_prop in T as [Hk0 Hk1].
  apply Z.leb_le in Hk0. apply Z.ltb_lt in Hk1.
  apply Z.eqb_eq in HM. apply Z.eqb_eq in HD.
  assert (Hday : Day t = DayFromYear y
                          + (daysBeforeMonth (isLeap y) (m - 1) + d - 1)).
  { unfold t, MakeDate, MakeDay, Day.
    rewrite Z.add_0_r, Z.div_mul by (unfold msPerDay; lia).
    replace ((m - 1) / 12) with 0 by (Z.div_mod_to_equations; lia).
    replace ((m - 1) mod 12) with (m - 1) by (Z.div_mod_to_equations; lia).
    rewrite Z.add_0_r. lia. }
  assert (HY : YearFromTime t = y).
  { apply YearFromTime_unique. rewrite DayFromYear_succ, Hday.
    unfold DaysInYear. destruct (isLeap y); lia. }
  assert (Hdiy : DayWithinYear t = daysBeforeMonth (isLeap y) (m - 1) + d - 1).
  { unfold DayWithinYear. rewrite HY, Hday. lia. }
  assert (HMF : MonthFromTime t
                = month_search 11 (isLeap y) 0
                    (daysBeforeMonth (isLeap y) (m - 1) + d - 1)).
  { unfold MonthFromTime. now rewrite HY, Hdiy. }
  split; [exact HY |].
  unfold DateFromTime, daysInMonth.
  rewrite HMF, HY, Hdiy. split; [exact HM | exact HD].
Qed.

End Calendar.

(** ** What [isValidDateFormat] accepts *)

Section DateCheck.
Import JsString.

Lemma date_text_chars (y m d : Z) :
  date_text y m d
  = String (digit_char (y / 10 / 10 / 10 mod 10))
      (String (digit_char (y / 10 / 10 mod 10))
         (String (digit_char (y / 10 mod 10))
            (String (digit_char (y mod 10))
               (String "-"
                  (String (digit_char (m / 10 mod 10))
                     (String (digit_char (m mod 10))
                        (String "-"
                           (String (digit_char (d / 10 mod 10))
                              (String (digit_char (d mod 10)) EmptyString))))))))).
Proof. reflexivity. Qed.

Lemma mod10_digit (k : Z) : 0 <= k mod 10 <= 9.
Proof. pose proof (Z.mod_pos_bound k 10). lia. Qed.

Lemma dateRegex_test_date_text (y m d : Z) :
  dateRegex_test (date_text y m d) = true.
Proof.
  rewrite date_text_chars. cbn [dateRegex_test].
  rewrite !digit_char_is_digit by apply mod10_digit. reflexivity.
Qed.

Lemma parse_date_text (tza y m d : Z) :
  0 <= y <= 9999 -> 0 <= m <= 99 -> 0 <= d <= 99 ->
  JsDate.parse tza (date_text y m d)
  = if JsDate.IsMonth m && JsDate.IsDay d
    then Some (JsDate.MakeDate (JsDate.MakeDay y (m - 1) d) 0)
    else if JsDate.IsDay y
    then
      let fullYear := if (0 <=? d) && (d <=? 49) then d + 2000
                      else if (50 <=? d) && (d <=? 99) then d + 1900
                      else d in
      if JsDate.IsMonth y && JsDate.IsDay m
      then Some (JsDate.MakeDate (JsDate.MakeDay fullYear (y - 1) m) 0 - tza)
      else None
    else None.
Proof.
  intros Hy Hm Hd. rewrite date_text_chars. cbn [JsDate.parse].
  rewrite !digit_value_char by apply mod10_digit.
  replace (1000 * (y / 10 / 10 / 10 mod 10) + 100 * (y / 10 / 10 mod 10)
           + 10 * (y / 10 mod 10) + y mod 10) with y
    by (Z.div_mod_to_equations; lia).
  replace (10 * (m / 10 mod 10) + m mod 10) with m
    by (Z.div_mod_to_equations; lia).
  replace (10 * (d / 10 mod 10) + d mod 10) with d
    by (Z.div_mod_to_equations; lia).
  reflexivity.
Qed.

Lemma startsWith_same_length (a x b : string) :
  String.length a = String.length b ->
  startsWith (a ++ x) b = (b =? a)%string.
Proof.
  revert b. induction a as [| c a IH]; intros [| e b] H; try discriminate.
  - cbn. now destruct x.
  - cbn [append startsWith String.eqb]. rewrite IH by (cbn in H; lia).
    now destruct (Ascii.eqb e c).
Qed.

Lemma startsWith_split (a x b y : string) :
  String.length a = String.length b ->
  startsWith (a ++ x) (b ++ y) = (b =? a)%string && startsWith x y.
Proof.
  revert b. induction a as [| c a IH]; intros [| e b] H; try discriminate.
  - reflexivity.
  - cbn [append startsWith String.eqb]. rewrite IH by (cbn in H; lia).
    now destruct (Ascii.eqb e c).
Qed.

Lemma padded_eqb (w : nat) (a b : Z) :
  0 <= a < 10 ^ Z.of_nat w -> 0 <= b < 10 ^ Z.of_nat w ->
  (padded w a =? padded w b)%string = (a =? b).
Proof.
  intros Ha Hb. destruct (Z.eqb_spec a b) as [-> | Hne].
  - apply String.eqb_refl.
  - apply String.eqb_neq. intros E. now apply padded_inj in E.
Qed.

(** The year of a date the legacy reading builds is in 1949..2050, whatever
    the offset of local time. *)
Lemma legacy_year (tza fy mo dd : Z) :
  - JsDate.msPerDay <= tza <= JsDate.msPerDay ->
  1950 <= fy <= 2049 -> 1 <= mo <= 12 -> 1 <= dd <= 31 ->
  1949 <= JsDate.YearFromTime
            (JsDate.MakeDate (JsDate.MakeDay fy (mo - 1) dd) 0 - tza) <= 2050.
Proof.
  intros Hz Hfy Hmo Hdd.
  set (t := JsDate.MakeDate (JsDate.MakeDay fy (mo - 1) dd) 0 - tza).
  assert (Hb : 0 <= JsDate.daysBeforeMonth (JsDate.isLeap fy) (mo - 1) <= 335).
  { assert (Hc : In mo (map Z.of_nat (seq 1 12))) by (apply in_range; lia).
    cbn in Hc. destruct (JsDate.isLeap fy);
      decompose [or] Hc; subst; cbn; try lia; contradiction. }
  assert (Hday : JsDate.DayFromYear fy - 1 <= JsDate.Day t
                 <= JsDate.DayFromYear fy + 366).
  { unfold t, JsDate.MakeDate, JsDate.MakeDay, JsDate.Day.
    replace ((mo - 1) / 12) with 0 by (Z.div_mod_to_equations; lia).
    replace ((mo - 1) mod 12) with (mo - 1) by (Z.div_mod_to_equations; lia).
    rewrite !Z.add_0_r. unfold JsDate.msPerDay in *.
    Z.div_mod_to_equations. lia. }
  pose proof (DayFromYear_mono 1950 fy ltac:(lia)) as Hlo.
  pose proof (DayFromYear_mono fy 2049 ltac:(lia)) as Hhi.
  assert (H1949 : JsDate.DayFromYear 1949 = -7670) by reflexivity.
  assert (H1950 : JsDate.DayFromYear 1950 = -7305) by reflexivity.
  assert (H2049 : JsDate.DayFromYear 2049 = 28855) by reflexivity.
  assert (H2051 : JsDate.DayFromYear 2051 = 29585) by reflexivity.
  pose proof (YearFromTime_spec t) as HY.
  split.
  - destruct (Z.le_gt_cases 1949 (JsDate.YearFromTime t)) as [H | H];
      [exact H |].
    pose proof (DayFromYear_mono (JsDate.YearFromTime t + 1) 1949 ltac:(lia)).
    lia.
  - destruct (Z.le_gt_cases (JsDate.YearFromTime t) 2050) as [H | H];
      [exact H |].
    pose proof (DayFromYear_mono 2051 (JsDate.YearFromTime t) ltac:(lia)).
    lia.
Qed.

Lemma padded4_chars (n : Z) :
  padded 4 n
  = String (digit_char (n / 10 / 10 / 10 mod 10))
      (String (digit_char (n / 10 / 10 mod 10))
         (String (digit_char (n / 10 mod 10))
            (String (digit_char (n mod 10)) EmptyString))).
Proof. reflexivity. Qed.

(** The check on the text of any three numbers of four, two and two digits,
    on a host at any offset of at most a day from UTC.  With a month 1..12
    and a day 1..31 it answers whether the month has that day.  Otherwise,
    when the year is 1..12 and the month 1..31 the legacy reading builds a
    date of the years 1950..2049 and the answer is [false]; in every other
    case the date is invalid and the check throws. *)
Lemma isValidDateFormat_at_date_text (tza y m d : Z) :
  - JsDate.msPerDay <= tza <= JsDate.msPerDay ->
  0 <= y <= 9999 -> 0 <= m <= 99 -> 0 <= d <= 99 ->
  isValidDateFormat_at tza (date_text y m d)
  = if JsDate.IsMonth m && JsDate.IsDay d
    then Return (d <=? daysInMonth y m)
    else if JsDate.IsMonth y && JsDate.IsDay m
    then Return false
    else Throw (RangeError "Invalid time value").
Proof.
  intros Hz Hy Hm Hd. unfold isValidDateFormat_at.
  rewrite dateRegex_test_date_text, parse_date_text by assumption.
  cbn [negb]. unfold JsDate.IsMonth, JsDate.IsDay.
  destruct (Z.leb_spec 1 m), (Z.leb_spec m 12), (Z.leb_spec 1 d),
    (Z.leb_spec d 31); cbn [andb].
  1: { (* an ISO date *)
    destruct (civil_of_time y m d ltac:(lia) ltac:(lia)) as (HY & HM & HD).
    cbn [JsDate.toISOString]. rewrite HY, HM, HD.
    unfold JsDate.yearString.
    replace ((0 <=? y) && (y <=? 9999)) with true
      by (symmetry; apply andb_true_intro; split; apply Z.leb_le; lia).
    f_equal. unfold date_text.
    rewrite startsWith_split by (now rewrite !padded_length).
    rewrite (startsWith_split "-" _ "-") by reflexivity.
    rewrite startsWith_split by (now rewrite !padded_length).
    rewrite (startsWith_split "-" _ "-") by reflexivity.
    rewrite startsWith_same_length by (now rewrite !padded_length).
    rewrite String.eqb_refl. cbn [andb String.eqb Ascii.eqb].
    pose proof (daysInMonth_bounds y m ltac:(lia)) as Hdim.
    destruct (Z.leb_spec d (daysInMonth y m)) as [Hle | Hgt].
    - now rewrite !String.eqb_refl.
    - rewrite (padded_eqb 2 m (m + 1)) by (cbn; lia).
      replace (m =? m + 1) with false by (symmetry; apply Z.eqb_neq; lia).
      reflexivity. }
  (* the ISO reading fails: the legacy reading *)
  all: destruct (Z.leb_spec 1 y), (Z.leb_spec y 12), (Z.leb_spec y 31),
         (Z.leb_spec m 31); cbn [andb]; cbv zeta; try lia; try reflexivity.
  all: cbn [JsDate.toISOString]; f_equal.
  all: match goal with
       | |- context [JsDate.MakeDate (JsDate.MakeDay ?fy ?a ?b) 0 - ?z] =>
           assert (Hfy : 1950 <= fy <= 2049)
             by (destruct (Z.leb_spec 0 d), (Z.leb_spec d 49),
                   (Z.leb_spec 50 d), (Z.leb_spec d 99); cbn [andb]; lia);
           pose proof (legacy_year z fy y m Hz Hfy ltac:(lia) ltac:(lia))
             as HY;
           generalize dependent
             (JsDate.MakeDate (JsDate.MakeDay fy a b) 0 - z)
       end.
  all: intros t HY; unfold JsDate.yearString.
  all: replace ((0 <=? JsDate.YearFromTime t) && (JsDate.YearFromTime t <=? 9999))
         with true
         by (symmetry; apply andb_true_intro; split; apply Z.leb_le; lia).
  all: rewrite padded4_chars, date_text_chars.
  all: cbn [append JsString.startsWith].
  all: replace (y / 10 / 10 / 10 mod 10) with 0
         by (Z.div_mod_to_equations; lia).
  all: assert (Hk : JsDate.YearFromTime t / 10 / 10 / 10 mod 10 = 1
                    \/ JsDate.YearFromTime t / 10 / 10 / 10 mod 10 = 2)
         by (Z.div_mod_to_equations; lia).
  all: destruct Hk as [-> | ->]; reflexivity.
Qed.

Lemma isValidDateFormat_date_text (y m d : Z) :
  0 <= y <= 9999 -> 0 <= m <= 99 -> 0 <= d <= 99 ->
  isValidDateFormat (date_text y m d)
  = if JsDate.IsMonth m && JsDate.IsDay d
    then Return (d <=? daysInMonth y m)
    else if JsDate.IsMonth y && JsDate.IsDay m
    then Return false
    else Throw (RangeError "Invalid time value").
Proof.
  apply isValidDateFormat_at_date_text.
  unfold JsDate.LocalTZA, JsDate.msPerDay. lia.
Qed.

(** The strings the pattern accepts are the texts of three numbers. *)
Lemma dateRegex_test_iff (s : string) :
  dateRegex_test s = true <->
  exists y m d, s = date_text y m d
                /\ 0 <= y <= 9999 /\ 0 <= m <= 99 /\ 0 <= d <= 99.
Proof.
  split.
  - intros H. apply dateRegex_test_shape in H
      as (y1 & y2 & y3 & y4 & m1 & m2 & d1 & d2 & -> & Hdig).
    repeat match goal with
           | H : Forall _ (_ :: _) |- _ => inversion H; subst; clear H
           end.
    repeat match goal with
           | H : is_digit _ = true |- _ =>
               apply digit_char_value in H; destruct H as [? ?]
           end.
    set (Y := 1000 * digit_value y1 + 100 * digit_value y2
              + 10 * digit_value y3 + digit_value y4).
    set (M := 10 * digit_value m1 + digit_value m2).
    set (D := 10 * digit_value d1 + digit_value d2).
    exists Y, M, D.
    split; [| subst Y M D; lia].
    rewrite date_text_chars.
    replace (Y / 10 / 10 / 10 mod 10) with (digit_value y1)
      by (subst Y; Z.div_mod_to_equations; lia).
    replace (Y / 10 / 10 mod 10) with (digit_value y2)
      by (subst Y; Z.div_mod_to_equations; lia).
    replace (Y / 10 mod 10) with (digit_value y3)
      by (subst Y; Z.div_mod_to_equations; lia).
    replace (Y mod 10) with (digit_value y4)
      by (subst Y; Z.div_mod_to_equations; lia).
    replace (M / 10 mod 10) with (digit_value m1)
      by (subst M; Z.div_mod_to_equations; lia).
    replace (M mod 10) with (digit_value m2)
      by (subst M; Z.div_mod_to_equations; lia).
    replace (D / 10 mod 10) with (digit_value d1)
      by (subst D; Z.div_mod_to_equations; lia).
    replace (D mod 10) with (digit_value d2)
      by (subst D; Z.div_mod_to_equations; lia).
    congruence.
  - intros (y & m & d & -> & _). apply dateRegex_test_date_text.
Qed.

End DateCheck.

(** The answer of the check does not depend on the host's time zone. *)
Lemma isValidDateFormat_any_zone (tza : Z) (s : string) :
  - JsDate.msPerDay <= tza <= JsDate.msPerDay ->
  isValidDateFormat_at tza s = isValidDateFormat s.
Proof.
  intros Hz. destruct (dateRegex_test s) eqn:Hre.
  - apply dateRegex_test_iff in Hre as (y & m & d & -> & Hy & Hm & Hd).
    transitivity (if JsDate.IsMonth m && JsDate.IsDay d
                  then Return (d <=? daysInMonth y m)
                  else if JsDate.IsMonth y && JsDate.IsDay m
                  then Return false
                  else Throw (RangeError "Invalid time value")).
    + now apply isValidDateFormat_at_date_text.
    + symmetry. now apply isValidDateFormat_date_text.
  - unfold isValidDateFormat, isValidDateFormat_at. rewrite Hre.
    cbn [negb]. reflexivity.
Qed.

Lemma valid_is_calendar (s : string) :
  isValidDateFormat s = Return true -> calendar_date s.
Proof.
  intros H. pose proof (isValidDateFormat_true_regex _ H) as Hre.
  apply dateRegex_test_iff in Hre as (y & m & d & -> & Hy & Hm & Hd).
  rewrite isValidDateFormat_date_text in H by assumption.
  unfold JsDate.IsMonth, JsDate.IsDay in H.
  destruct (Z.leb_spec 1 m), (Z.leb_spec m 12), (Z.leb_spec 1 d),
    (Z.leb_spec d 31); cbn [andb] in H;
    try (match type of H with
         | (if ?c then _ else _) = _ => destruct c; discriminate
         end).
  injection H as Hle. apply Z.leb_le in Hle.
  exists y, m, d. repeat split; lia.
Qed.

Lemma calendar_is_valid (s : string) :
  calendar_date s -> isValidDateFormat s = Return true.
Proof.
  intros (y & m & d & -> & Hy & Hm & Hd).
  pose proof (daysInMonth_bounds y m Hm) as Hdim.
  rewrite isValidDateFormat_date_text by lia.
  unfold JsDate.IsMonth, JsDate.IsDay.
  destruct (Z.leb_spec 1 m), (Z.leb_spec m 12), (Z.leb_spec 1 d),
    (Z.leb_spec d 31); try lia.
  cbn [andb]. f_equal. apply Z.leb_le. lia.
Qed.

Lemma valid_iff_calendar (s : string) :
  isValidDateFormat s = Return true <-> calendar_date s.
Proof. split; [apply valid_is_calendar | apply calendar_is_valid]. Qed.

(** X1: the date check answers [true] exactly on the zero-padded texts
    [YYYY-MM-DD] of the days of the Gregorian calendar (years 0000 to 9999,
    months 01 to 12, days 01 to the length of the month, leap years
    included). *)
Theorem isValidDateFormat_accepts_calendar_dates (s : string) :
  isValidDateFormat s = Return true <-> calendar_date s.
Proof.
  split.
  - apply valid_is_calendar.
  - apply calendar_is_valid.
Qed.

(** X2: the date check throws exactly on the texts of the right shape whose
    month is not 01..12 or whose day is not 01..31, except those the legacy
    reading of the engine makes a date of (year 0001..0012 with a month field
    01..31); what it throws is always the [RangeError] of [toISOString]. *)
Theorem isValidDateFormat_throws_iff (s : string) (e : JsError) :
  isValidDateFormat s = Throw e <->
  e = RangeError "Invalid time value"
  /\ exists y m d,
       s = date_text y m d
       /\ 0 <= y <= 9999 /\ 0 <= m <= 99 /\ 0 <= d <= 99
       /\ (m < 1 \/ 12 < m \/ d < 1 \/ 31 < d)
       /\ (y < 1 \/ 12 < y \/ m < 1 \/ 31 < m).
Proof.
  split.
  - intros H. pose proof H as H'.
    apply isValidDateFormat_throws in H' as (Hre & _ & ->).
    split; [reflexivity |].
    apply dateRegex_test_iff in Hre as (y & m & d & -> & Hy & Hm & Hd).
    exists y, m, d.
    rewrite isValidDateFormat_date_text in H by assumption.
    unfold JsDate.IsMonth, JsDate.IsDay in H.
    destruct (Z.leb_spec 1 m), (Z.leb_spec m 12), (Z.leb_spec 1 d),
      (Z.leb_spec d 31), (Z.leb_spec 1 y), (Z.leb_spec y 12),
      (Z.leb_spec m 31); cbn [andb] in H; try discriminate;
      repeat split; lia.
  - intros (-> & y & m & d & -> & Hy & Hm & Hd & Hiso & Hlegacy).
    rewrite isValidDateFormat_date_text by assumption.
    unfold JsDate.IsMonth, JsDate.IsDay.
    destruct (Z.leb_spec 1 m), (Z.leb_spec m 12), (Z.leb_spec 1 d),
      (Z.leb_spec d 31), (Z.leb_spec 1 y), (Z.leb_spec y 12),
      (Z.leb_spec m 31); cbn [andb]; try reflexivity; lia.
Qed.

(** X3: the date check answers [false] exactly on the strings that are not
    of the shape of four, two and two digits between hyphens, on the texts
    whose month is 01..12 and whose day, at most 31, is past the end of that
    month, and on the texts with a month or day out of range that the legacy
    reading of the engine makes a date of (year 0001..0012 with a month field
    01..31). *)
Theorem isValidDateFormat_false_iff (s : string) :
  isValidDateFormat s = Return false <->
  dateRegex_test s = false
  \/ exists y m d,
       s = date_text y m d
       /\ 0 <= y <= 9999 /\ 0 <= m <= 99 /\ 0 <= d <= 99
       /\ ((1 <= m <= 12 /\ daysInMonth y m < d <= 31)
           \/ (1 <= y <= 12 /\ 1 <= m <= 31
               /\ (12 < m \/ d < 1 \/ 31 < d))).
Proof.
  split.
  - intros H. destruct (dateRegex_test s) eqn:Hre; [right | now left].
    apply dateRegex_test_iff in Hre as (y & m & d & -> & Hy & Hm & Hd).
    rewrite isValidDateFormat_date_text in H by assumption.
    unfold JsDate.IsMonth, JsDate.IsDay in H.
    exists y, m, d. split; [reflexivity |].
    destruct (Z.leb_spec 1 m), (Z.leb_spec m 12), (Z.leb_spec 1 d),
      (Z.leb_spec d 31), (Z.leb_spec 1 y), (Z.leb_spec y 12),
      (Z.leb_spec m 31); cbn [andb] in H; try discriminate;
      try (injection H as Hle; apply Z.leb_gt in Hle);
      repeat split; try lia.
  - intros [Hre | (y & m & d & -> & Hy & Hm & Hd & Hcase)].
    + unfold isValidDateFormat, isValidDateFormat_at. now rewrite Hre.
    + rewrite isValidDateFormat_date_text by lia.
      unfold JsDate.IsMonth, JsDate.IsDay.
      destruct Hcase as [[Hm' Hd'] | (Hy' & Hm' & Hout)].
      * pose proof (daysInMonth_bounds y m Hm') as Hdim.
        destruct (Z.leb_spec 1 m), (Z.leb_spec m 12), (Z.leb_spec 1 d),
          (Z.leb_spec d 31); try lia.
        cbn [andb]. f_equal. apply Z.leb_gt. lia.
      * destruct (Z.leb_spec 1 m), (Z.leb_spec m 12), (Z.leb_spec 1 d),
          (Z.leb_spec d 31), (Z.leb_spec 1 y), (Z.leb_spec y 12),
          (Z.leb_spec m 31); cbn [andb]; try reflexivity; lia.
Qed.

(** ** The states the ledger reaches *)

Section Reachable.
Import statements.

Lemma run_ops_snoc (ops : list LedgerOp) (op : LedgerOp) (db : Database) :
  run_ops (ops ++ [op]) db = apply_op op (run_ops ops db).
Proof. unfold run_ops. now rewrite fold_left_app. Qed.

(** Induction over the reachable states. *)
Lemma reachable_ind (P : Database -> Prop) :
  P emptyDatabase ->
  (forall op db, reachable db -> P db -> P (apply_op op db)) ->
  forall db, reachable db -> P db.
Proof.
  intros H0 Hstep db [ops ->].
  induction ops as [| op ops IH] using rev_ind; [exact H0 |].
  rewrite run_ops_snoc. apply Hstep; [now exists ops | exact IH].
Qed.

(** An operation leaves the collection as it is, inserts the row of a valid
    date that is free, or deletes the rows of a date. *)
Lemma apply_op_cases (op : LedgerOp) (db : Database) :
  apply_op op db = db
  \/ (exists now input,
        isValidDateFormat (Input.date input) = Return true
        /\ existsb (has_date (Input.date input)) (bookings db) = false
        /\ apply_op op db = inserted_db now input db)
  \/ (exists d,
        apply_op op db
        = mkDatabase (filter (fun b => negb (has_date d b)) (bookings db))
                     (sqlite_sequence db)).
Proof.
  destruct op as [now input | d | d |]; cbn [apply_op]; try (now left).
  - destruct (createBooking now input db) as [[r | e] db'] eqn:H; cbn [snd].
    + apply createBooking_Return_inv in H as (Hv & Hfree & _ & ->).
      right. left. now exists now, input.
    + apply createBooking_Throw_unchanged in H. now left.
  - right. right. exists d. now rewrite deleteBooking_eq.
Qed.

Lemma Forall_filter_keep {A : Type} (P : A -> Prop) (f : A -> bool) (l : list A) :
  Forall P l -> Forall P (filter f l).
Proof.
  induction 1 as [| x l Hx _ IH]; cbn; [constructor |].
  destruct (f x); [now constructor | exact IH].
Qed.

Lemma StronglySorted_filter {A : Type} (R : A -> A -> Prop) (f : A -> bool)
    (l : list A) :
  StronglySorted R l -> StronglySorted R (filter f l).
Proof.
  induction 1 as [| x l Hs IH Hx]; cbn; [constructor |].
  destruct (f x); [| exact IH].
  constructor; [exact IH | now apply Forall_filter_keep].
Qed.

Lemma StronglySorted_snoc {A : Type} (R : A -> A -> Prop) (l : list A) (b : A) :
  StronglySorted R l -> Forall (fun a => R a b) l ->
  StronglySorted R (l ++ [b]).
Proof.
  induction 1 as [| x l Hs IH Hx]; intros Hb; cbn.
  - repeat constructor.
  - inversion Hb; subst. constructor; [now apply IH |].
    apply Forall_app. split; [exact Hx | now repeat constructor].
Qed.

Lemma id_lt_sorted_NoDup (l : list Booking) :
  StronglySorted id_lt l -> NoDup (map id l).
Proof.
  induction 1 as [| x l Hs IH Hx]; cbn; constructor; [| exact IH].
  intros Hin. apply in_map_iff in Hin as (y & Hy & Hin).
  rewrite Forall_forall in Hx. specialize (Hx y Hin). unfold id_lt in Hx. lia.
Qed.

Lemma max_rowid_nonneg (l : list Booking) : 0 <= max_rowid l.
Proof.
  unfold max_rowid. induction l as [| c l IH]; cbn [fold_right]; lia.
Qed.

Lemma sqlite_sequence_mono (op : LedgerOp) (db : Database) :
  sqlite_sequence db <= sqlite_sequence (apply_op op db).
Proof.
  destruct (apply_op_cases op db)
    as [-> | [(now & input & _ & _ & ->) | (d & ->)]];
    cbn [sqlite_sequence inserted_db]; unfold next_rowid; lia.
Qed.

Lemma run_ops_sequence_mono (ops : list LedgerOp) (db : Database) :
  sqlite_sequence db <= sqlite_sequence (run_ops ops db).
Proof.
  induction ops as [| op ops IH] using rev_ind; [cbn; lia |].
  rewrite run_ops_snoc. pose proof (sqlite_sequence_mono op (run_ops ops db)).
  lia.
Qed.

End Reachable.

(** X4: whatever operations ran since the collection was empty, every stored
    booking has the text of a real calendar day as its date. *)
Theorem stored_dates_are_calendar_dates (db : Database) :
  reachable db -> Forall (fun b => calendar_date (date b)) (bookings db).
Proof.
  revert db.
  apply (reachable_ind
           (fun db => Forall (fun b => calendar_date (date b)) (bookings db)));
    [constructor |].
  intros op s _ IH.
  destruct (apply_op_cases op s)
    as [-> | [(now & input & Hv & _ & ->) | (d & ->)]]; [exact IH | |].
  - cbn [bookings inserted_db]. apply Forall_app. split; [exact IH |].
    constructor; [| constructor]. cbn [date inserted_row].
    now apply valid_iff_calendar.
  - cbn [bookings]. now apply Forall_filter_keep.
Qed.

Lemma stored_dates_are_calendar_dates_witness :
  Forall (fun b => calendar_date (date b))
    (bookings (run_ops [OpCreate "2025-11-30 09:00:00"
                          (Input.mk "2024-02-29" None None);
                        OpCreate "2025-11-30 09:00:01"
                          (Input.mk "2025-02-30" None None)]
                 emptyDatabase)).
Proof.
  apply stored_dates_are_calendar_dates.
  eexists. reflexivity.
Defined.

(** X5: in every reachable state the identifiers of the stored bookings are
    positive, at most the AUTOINCREMENT counter, strictly increasing in the
    order of insertion, and so pairwise different. *)
Theorem stored_ids_increasing (db : Database) :
  reachable db ->
  Forall (fun b => 1 <= id b <= sqlite_sequence db) (bookings db)
  /\ StronglySorted id_lt (bookings db)
  /\ NoDup (map id (bookings db)).
Proof.
  intros Hr.
  assert (H : Forall (fun b => 1 <= id b <= sqlite_sequence db) (bookings db)
              /\ StronglySorted id_lt (bookings db)).
  { revert db Hr.
    apply (reachable_ind
             (fun db =>
                Forall (fun b => 1 <= id b <= sqlite_sequence db) (bookings db)
                /\ StronglySorted id_lt (bookings db))).
    - split; constructor.
    - intros op s _ [Hids Hsorted].
      destruct (apply_op_cases op s)
        as [-> | [(now & input & _ & _ & ->) | (d & ->)]]; [now split | |].
      + cbn [bookings inserted_db sqlite_sequence].
        split.
        * apply Forall_app. split.
          -- eapply Forall_impl; [| exact Hids].
             unfold statements.next_rowid. intros b Hb. cbn beta in Hb. lia.
          -- constructor; [| constructor]. cbn [id inserted_row].
             unfold statements.next_rowid.
             pose proof (Z.le_max_l (statements.max_rowid (bookings s))
                           (sqlite_sequence s)).
             pose proof (max_rowid_nonneg (bookings s)). lia.
        * apply StronglySorted_snoc; [exact Hsorted |].
          rewrite Forall_forall. intros c Hc.
          apply (inserted_row_newest now input s c Hc).
      + cbn [bookings sqlite_sequence].
        split; [now apply Forall_filter_keep | now apply StronglySorted_filter]. }
  destruct H as [Hids Hsorted].
  split; [exact Hids |]. split; [exact Hsorted |].
  now apply id_lt_sorted_NoDup.
Qed.

Lemma stored_ids_increasing_witness :
  map id (bookings (run_ops
                      [OpCreate "t1" (Input.mk "2025-12-10" None None);
                       OpCreate "t2" (Input.mk "2025-12-08" None None);
                       OpDeleteByDate "2025-12-08";
                       OpCreate "t3" (Input.mk "2025-12-08" None None)]
                      emptyDatabase)) = [1; 3]
  /\ NoDup [1; 3].
Proof.
  split; [vm_compute; reflexivity |].
  change [1; 3] with
    (map id (bookings (mkDatabase [mkBooking 1 "2025-12-10" None None "t1";
                                   mkBooking 3 "2025-12-08" None None "t3"] 3))).
  apply stored_ids_increasing.
  exists [OpCreate "t1" (Input.mk "2025-12-10" None None);
          OpCreate "t2" (Input.mk "2025-12-08" None None);
          OpDeleteByDate "2025-12-08";
          OpCreate "t3" (Input.mk "2025-12-08" None None)].
  vm_compute. reflexivity.
Defined.

(** X6: an identifier is never given out twice: on tables whose
    identifiers are below [MAX_SAFE_INTEGER], a booking created after another
    one, whatever was created or deleted in between, gets a strictly larger
    identifier. *)
Theorem ids_never_reused (now1 now2 : string) (in1 in2 : CreateBookingInput)
    (db db1 db3 : Database) (b1 b2 : Booking) (ops : list LedgerOp) :
  ids_safe db ->
  ids_safe (run_ops ops db1) ->
  createBooking now1 in1 db = (Return (Some b1), db1) ->
  createBooking now2 in2 (run_ops ops db1) = (Return (Some b2), db3) ->
  id b1 < id b2 <= MAX_SAFE_INTEGER.
Proof.
  intros Hsafe1 Hsafe2 H1 H2.
  pose proof (ids_safe_next_rowid _ Hsafe2) as Hmax.
  apply createBooking_Return_inv in H1 as (_ & _ & E1 & ->).
  apply createBooking_Return_inv in H2 as (_ & _ & E2 & ->).
  inversion E1; subst b1. inversion E2; subst b2.
  cbn [id inserted_row].
  pose proof (run_ops_sequence_mono ops (inserted_db now1 in1 db)) as Hm.
  cbn [sqlite_sequence inserted_db] in Hm.
  split; [unfold statements.next_rowid at 2; lia | exact Hmax].
Qed.

Lemma ids_never_reused_witness :
  let b1 := mkBooking 1 "2025-12-12" None None "t1" in
  let b2 := mkBooking 2 "2025-12-12" None None "t2" in
  createBooking "t1" (Input.mk "2025-12-12" None None) emptyDatabase
  = (Return (Some b1), mkDatabase [b1] 1)
  /\ createBooking "t2" (Input.mk "2025-12-12" None None)
       (run_ops [OpDeleteByDate "2025-12-12"] (mkDatabase [b1] 1))
     = (Return (Some b2), mkDatabase [b2] 2)
  /\ id b1 < id b2 <= MAX_SAFE_INTEGER.
Proof.
  intros b1 b2.
  assert (Hsafe1 : ids_safe emptyDatabase)
    by (split; [reflexivity | constructor]).
  assert (Hsafe2 : ids_safe (run_ops [OpDeleteByDate "2025-12-12"]
                               (mkDatabase [b1] 1))).
  { replace (run_ops [OpDeleteByDate "2025-12-12"] (mkDatabase [b1] 1))
      with (mkDatabase [] 1) by (vm_compute; reflexivity).
    split; [reflexivity | constructor]. }
  assert (H1 : createBooking "t1" (Input.mk "2025-12-12" None None) emptyDatabase
               = (Return (Some b1), mkDatabase [b1] 1))
    by (vm_compute; reflexivity).
  assert (H2 : createBooking "t2" (Input.mk "2025-12-12" None None)
                 (run_ops [OpDeleteByDate "2025-12-12"] (mkDatabase [b1] 1))
               = (Return (Some b2), mkDatabase [b2] 2))
    by (vm_compute; reflexivity).
  split; [exact H1 |]. split; [exact H2 |].
  exact (ids_never_reused _ _ _ _ _ _ _ _ _ _ Hsafe1 Hsafe2 H1 H2).
Defined.

(** ** Lookups and other dates *)

Section Lookup.
Import statements.

Lemma find_after_delete_other (d e : string) (l : list Booking) :
  d <> e ->
  find (has_date e) (filter (fun b => negb (has_date d b)) l)
  = find (has_date e) l.
Proof.
  intros Hne. induction l as [| c l IH]; [reflexivity |]. cbn [filter find].
  destruct (has_date d c) eqn:Hd; cbn [negb find].
  - rewrite (has_date_other d e c Hd Hne). exact IH.
  - destruct (has_date e c); [reflexivity | exact IH].
Qed.

Lemma find_appended_other (p : Booking -> bool) (l : list Booking) (b : Booking) :
  p b = false -> find p (l ++ [b]) = find p l.
Proof.
  intros Hb. induction l as [| c l IH]; cbn; [now rewrite Hb |].
  destruct (p c); [reflexivity | exact IH].
Qed.

Lemma at_most_one_equal (p : Booking -> bool) (l : list Booking) (a b : Booking) :
  (List.length (filter p l) <= 1)%nat ->
  In a l -> In b l -> p a = true -> p b = true -> a = b.
Proof.
  induction l as [| c l IH]; [contradiction |]. cbn [filter].
  intros Hlen [-> | Ha] [-> | Hb] Pa Pb; try reflexivity.
  - rewrite Pa in Hlen. cbn in Hlen.
    assert (In b (filter p l)) by (apply filter_In; auto).
    destruct (filter p l); [contradiction | cbn in Hlen; lia].
  - rewrite Pb in Hlen. cbn in Hlen.
    assert (In a (filter p l)) by (apply filter_In; auto).
    destruct (filter p l); [contradiction | cbn in Hlen; lia].
  - apply IH; auto. destruct (p c); cbn in Hlen; lia.
Qed.

Lemma reachable_unique (db : Database) : reachable db -> unique_dates db.
Proof.
  revert db. apply (reachable_ind unique_dates).
  - intros d. cbn. lia.
  - intros op db _. apply apply_op_unique.
Qed.

End Lookup.

(** X7: creating or deleting the booking of one date never changes what
    [getBookingByDate] finds for another date. *)
Theorem other_dates_untouched (now : string) (input : CreateBookingInput)
    (d e : string) (db : Database) :
  (Input.date input <> e ->
   getBookingByDate e (snd (createBooking now input db)) = getBookingByDate e db)
  /\ (d <> e ->
      getBookingByDate e (snd (deleteBooking d db)) = getBookingByDate e db).
Proof.
  split; intros Hne.
  - destruct (createBooking_state now input db) as [-> | [_ ->]];
      [reflexivity |].
    unfold getBookingByDate, statements.getBookingByDate_get.
    cbn [bookings inserted_db]. apply find_appended_other.
    unfold statements.has_date. cbn [date inserted_row].
    now apply String.eqb_neq.
  - rewrite deleteBooking_eq. cbn [snd].
    unfold getBookingByDate, statements.getBookingByDate_get. cbn [bookings].
    now apply find_after_delete_other.
Qed.

Lemma other_dates_untouched_witness :
  let db := mkDatabase [mkBooking 1 "2025-12-08" None None "t1";
                        mkBooking 2 "2025-12-09" None None "t2"] 2 in
  getBookingByDate "2025-12-08"
    (snd (createBooking "t3" (Input.mk "2025-12-10" None None) db))
  = getBookingByDate "2025-12-08" db
  /\ getBookingByDate "2025-12-08" (snd (deleteBooking "2025-12-09" db))
     = getBookingByDate "2025-12-08" db.
Proof.
  intros db.
  destruct (other_dates_untouched "t3" (Input.mk "2025-12-10" None None)
              "2025-12-09" "2025-12-08" db) as [Hc Hd].
  split; [apply Hc | apply Hd]; discriminate.
Defined.

(** X8: in a reachable state [getBookingByDate] is exact: it finds a booking
    if and only if that booking is stored under the date, and it finds
    nothing if and only if no booking has the date. *)
Theorem getBookingByDate_exact (db : Database) (d : string) (b : Booking) :
  reachable db ->
  (getBookingByDate d db = Some b <-> In b (bookings db) /\ date b = d)
  /\ (getBookingByDate d db = None <->
      forall c, In c (bookings db) -> date c <> d).
Proof.
  intros Hr. apply reachable_unique in Hr. specialize (Hr d).
  unfold getBookingByDate, statements.getBookingByDate_get.
  split; split.
  - intros H. apply find_some in H as [Hin Hd].
    split; [exact Hin | now apply String.eqb_eq].
  - intros [Hin Hd].
    destruct (find (statements.has_date d) (bookings db)) as [c |] eqn:F.
    + apply find_some in F as [Hc Pc]. f_equal.
      eapply at_most_one_equal; eauto.
      unfold statements.has_date. now apply String.eqb_eq.
    + exfalso. apply (find_none _ _ F) in Hin.
      unfold statements.has_date in Hin. apply String.eqb_neq in Hin. auto.
  - intros F c Hc. apply (find_none _ _ F) in Hc.
    unfold statements.has_date in Hc. now apply String.eqb_neq.
  - intros Hno. apply find_has_date_none.
    destruct (existsb (statements.has_date d) (bookings db)) eqn:E;
      [| reflexivity].
    apply existsb_has_date in E as (c & Hc & Hd). now elim (Hno c Hc).
Qed.

Lemma getBookingByDate_exact_witness :
  let db := run_ops [OpCreate "t1" (Input.mk "2025-12-11" (Some "Test User") None)]
              emptyDatabase in
  let b := mkBooking 1 "2025-12-11" (Some "Test User") None "t1" in
  (getBookingByDate "2025-12-11" db = Some b <->
   In b (bookings db) /\ date b = "2025-12-11")
  /\ (getBookingByDate "2099-12-31" db = None <->
      forall c, In c (bookings db) -> date c <> "2099-12-31").
Proof.
  intros db b.
  assert (Hr : reachable db) by (eexists; reflexivity).
  split.
  - apply (getBookingByDate_exact db "2025-12-11" b Hr).
  - apply (getBookingByDate_exact db "2099-12-31" b Hr).
Defined.

(** ** The listing of a collection with one booking per date *)

Section Listing.
Import statements.

Lemma filter_length_perm (p : Booking -> bool) (l l' : list Booking) :
  Permutation l l' ->
  List.length (filter p l) = List.length (filter p l').
Proof.
  induction 1 as [| x l l' _ IH | x y l | l l' l'' _ IH1 _ IH2]; cbn;
    [reflexivity | | | congruence].
  - destruct (p x); cbn; congruence.
  - destruct (p x), (p y); reflexivity.
Qed.

Lemma one_per_date_inj (l : list Booking) (a b : Booking) :
  (forall d, (List.length (filter (has_date d) l) <= 1)%nat) ->
  In a l -> In b l -> date a = date b -> a = b.
Proof.
  intros Hu Ha Hb E.
  apply (at_most_one_equal (has_date (date a)) l a b (Hu (date a)) Ha Hb);
    unfold has_date; apply String.eqb_eq; congruence.
Qed.

Lemma one_per_date_NoDup (l : list Booking) :
  (forall d, (List.length (filter (has_date d) l) <= 1)%nat) -> NoDup l.
Proof.
  induction l as [| c l IH]; intros Hu; constructor.
  - intros Hin. specialize (Hu (date c)). cbn [filter] in Hu.
    unfold has_date at 1 in Hu. rewrite String.eqb_refl in Hu. cbn in Hu.
    assert (In c (filter (has_date (date c)) l)).
    { apply filter_In. split; [exact Hin |].
      unfold has_date. apply String.eqb_refl. }
    destruct (filter (has_date (date c)) l); [contradiction | cbn in Hu; lia].
  - apply IH. intros d. specialize (Hu d). cbn [filter] in Hu.
    destruct (has_date d c); cbn in Hu; lia.
Qed.

(** Two lists in ascending order of date with the same rows, no two of
    them of one date, are the same list. *)
Lemma sorted_perm_eq (l1 l2 : list Booking) :
  StronglySorted date_le l1 -> StronglySorted date_le l2 ->
  Permutation l1 l2 ->
  (forall a b, In a l1 -> In b l1 -> date a = date b -> a = b) ->
  l1 = l2.
Proof.
  revert l2. induction l1 as [| a l1 IH]; intros l2 S1 S2 P Inj.
  - apply Permutation_nil in P. now subst.
  - destruct l2 as [| b l2];
      [apply Permutation_sym, Permutation_nil in P; discriminate |].
    inversion S1 as [| ? ? S1' F1]; subst.
    inversion S2 as [| ? ? S2' F2]; subst.
    rewrite Forall_forall in F1, F2.
    assert (Hab : a = b).
    { assert (Ha : In a (b :: l2))
        by (eapply Permutation_in; [exact P | now left]).
      assert (Hb : In b (a :: l1))
        by (eapply Permutation_in; [apply Permutation_sym; exact P | now left]).
      destruct Ha as [-> | Ha]; [reflexivity |].
      destruct Hb as [-> | Hb]; [reflexivity |].
      apply Inj; [now left | now right |].
      apply String.leb_antisym; [apply (F1 b Hb) | apply (F2 a Ha)]. }
    subst b. f_equal.
    apply IH; [exact S1' | exact S2' | now apply Permutation_cons_inv in P |].
    intros x y Hx Hy. apply Inj; now right.
Qed.

Lemma leb_ne_ltb (s1 s2 : string) :
  String.leb s1 s2 = true -> s1 <> s2 -> String.ltb s1 s2 = true.
Proof.
  unfold String.leb, String.ltb. intros Hle Hne.
  destruct (String.compare s1 s2) eqn:C; [| reflexivity | discriminate].
  apply String.compare_eq_iff in C. contradiction.
Qed.

End Listing.

(** X9: when no two stored bookings share a date, the listing does not
    depend on the order in which the rows were inserted: two collections with
    the same rows list them in the same order. *)
Theorem getAllBookings_order_independent (db1 db2 : Database) :
  unique_dates db1 ->
  Permutation (bookings db1) (bookings db2) ->
  getAllBookings db1 = getAllBookings db2.
Proof.
  intros Hu P. unfold getAllBookings, statements.getAllBookings_all.
  apply sorted_perm_eq; try apply order_by_date_sorted.
  - rewrite <- (order_by_date_perm (bookings db1)).
    rewrite <- (order_by_date_perm (bookings db2)). exact P.
  - intros a b Ha Hb.
    apply (one_per_date_inj (bookings db1)); [exact Hu | |];
      eapply Permutation_in; try eassumption;
      apply Permutation_sym, order_by_date_perm.
Qed.

Lemma getAllBookings_order_independent_witness :
  let r1 := mkBooking 1 "2025-12-10" None None "t1" in
  let r2 := mkBooking 2 "2025-12-08" None None "t2" in
  getAllBookings (mkDatabase [r1; r2] 2) = getAllBookings (mkDatabase [r2; r1] 2).
Proof.
  intros r1 r2.
  apply getAllBookings_order_independent.
  - apply reachable_unique.
    exists [OpCreate "t1" (Input.mk "2025-12-10" None None);
            OpCreate "t2" (Input.mk "2025-12-08" None None)].
    vm_compute. reflexivity.
  - cbn [bookings]. apply perm_swap.
Defined.

(** X10: in a reachable state the listing is in strictly ascending order of
    date: no two listed bookings have the same date. *)
Theorem getAllBookings_strictly_ascending (db : Database) :
  reachable db ->
  StronglySorted (fun a b => String.ltb (date a) (date b) = true)
    (getAllBookings db).
Proof.
  intros Hr. apply reachable_unique in Hr.
  unfold getAllBookings, statements.getAllBookings_all.
  pose proof (order_by_date_sorted (bookings db)) as Hs.
  pose proof (order_by_date_perm (bookings db)) as Hp.
  assert (Hu : forall d,
             (List.length (filter (statements.has_date d)
                             (statements.order_by_date (bookings db))) <= 1)%nat).
  { intros d. rewrite <- (filter_length_perm _ _ _ Hp). apply Hr. }
  clear Hp Hr.
  induction Hs as [| c l Hs IH Hc]; constructor.
  - apply IH. intros d. specialize (Hu d). cbn [filter] in Hu.
    destruct (statements.has_date d c); cbn in Hu; lia.
  - pose proof (one_per_date_NoDup _ Hu) as Hnd. inversion Hnd; subst.
    rewrite Forall_forall in Hc |- *. intros x Hx.
    apply leb_ne_ltb; [apply (Hc x Hx) |].
    intros E. assert (c = x)
      by (apply (one_per_date_inj (c :: l)); [exact Hu | now left | now right | exact E]).
    subst x. contradiction.
Qed.

Lemma getAllBookings_strictly_ascending_witness :
  StronglySorted (fun a b => String.ltb (date a) (date b) = true)
    (getAllBookings
       (run_ops [OpCreate "t1" (Input.mk "2025-12-10" None None);
                 OpCreate "t2" (Input.mk "2025-12-08" None None);
                 OpCreate "t3" (Input.mk "2025-12-09" None None)]
          emptyDatabase)).
Proof.
  apply getAllBookings_strictly_ascending. eexists. reflexivity.
Defined.

(** ** Creating and deleting *)

(** X11: deleting the date of a booking that was just created gives back
    the rows the collection had before the creation; only the AUTOINCREMENT
    counter has moved on. *)
Theorem create_then_delete_restores_rows (now : string)
    (input : CreateBookingInput) (db db' : Database) (r : option Booking) :
  createBooking now input db = (Return r, db') ->
  bookings (snd (deleteBooking (Input.date input) db')) = bookings db
  /\ sqlite_sequence db
     < sqlite_sequence (snd (deleteBooking (Input.date input) db')).
Proof.
  intros H. apply createBooking_Return_inv in H as (_ & Hfree & _ & ->).
  rewrite deleteBooking_eq. cbn [snd bookings sqlite_sequence inserted_db].
  split; [| unfold statements.next_rowid; lia].
  rewrite filter_app, filter_keep_all by exact Hfree.
  cbn [filter]. unfold statements.has_date at 1. cbn [date inserted_row].
  rewrite String.eqb_refl. cbn [negb]. apply app_nil_r.
Qed.

Lemma create_then_delete_restores_rows_witness :
  let r0 := mkBooking 1 "2025-12-08" None None "t1" in
  let r1 := mkBooking 2 "2025-12-12" None None "t2" in
  createBooking "t2" (Input.mk "2025-12-12" None None) (mkDatabase [r0] 1)
  = (Return (Some r1), mkDatabase [r0; r1] 2)
  /\ bookings (snd (deleteBooking "2025-12-12" (mkDatabase [r0; r1] 2))) = [r0].
Proof.
  intros r0 r1.
  assert (H : createBooking "t2" (Input.mk "2025-12-12" None None)
                (mkDatabase [r0] 1)
              = (Return (Some r1), mkDatabase [r0; r1] 2))
    by (vm_compute; reflexivity).
  split; [exact H |].
  exact (proj1 (create_then_delete_restores_rows _ _ _ _ _ H)).
Defined.

(** X12: in a reachable state a [deleteBooking] that answers [true] removes
    exactly one row. *)
Theorem deleteBooking_removes_one_row (d : string) (db : Database) :
  reachable db ->
  fst (deleteBooking d db) = true ->
  S (List.length (bookings (snd (deleteBooking d db))))
  = List.length (bookings db).
Proof.
  intros Hr Ht. apply reachable_unique in Hr. specialize (Hr d).
  rewrite deleteBooking_eq in Ht |- *. cbn [fst snd bookings] in *.
  pose proof (removed_count d (bookings db)) as Hc.
  rewrite live_count_existsb in Ht. unfold live_count in *.
  destruct (Nat.eqb_spec
              (List.length (filter (statements.has_date d) (bookings db))) 0);
    [discriminate | lia].
Qed.

Lemma deleteBooking_removes_one_row_witness :
  let db := run_ops [OpCreate "t1" (Input.mk "2025-12-10" None None);
                     OpCreate "t2" (Input.mk "2025-12-08" None None)]
              emptyDatabase in
  S (List.length (bookings (snd (deleteBooking "2025-12-08" db))))
  = List.length (bookings db).
Proof.
  intros db. apply deleteBooking_removes_one_row.
  - eexists. reflexivity.
  - vm_compute. reflexivity.
Defined.

(** X13: on a table whose identifiers are below [MAX_SAFE_INTEGER],
    whenever [createBooking] throws, the collection is left exactly as it
    was, and the error is the format error (the check answered [false]), the
    duplicate-date error (the date is valid and taken) or the error the check
    itself threw.  And whatever error the INSERT raises, the transaction
    leaves the collection as it was: the uniqueness violation is thrown on as
    the duplicate-date error, every other error of the storage is thrown on
    unchanged. *)
Theorem createBooking_failure_atomic (now : string)
    (input : CreateBookingInput) (db db' : Database) (e : JsError) :
  (ids_safe db ->
   createBooking now input db = (Throw e, db') ->
   db' = db
   /\ ((isValidDateFormat (Input.date input) = Return false
        /\ e = Error "Date must be in YYYY-MM-DD format")
       \/ (isValidDateFormat (Input.date input) = Return true
           /\ (exists b, In b (bookings db) /\ date b = Input.date input)
           /\ e = Error ("Date " ++ Input.date input ++ " is already booked"))
       \/ (isValidDateFormat (Input.date input) = Throw e
           /\ e = RangeError "Invalid time value")))
  /\ (forall error : JsError,
        (code error = Some "SQLITE_CONSTRAINT_UNIQUE" ->
         db_transaction (createBooking_body_on (inr error) input) db
         = (Throw (Error ("Date " ++ Input.date input ++ " is already booked")),
            db))
        /\ (code error <> Some "SQLITE_CONSTRAINT_UNIQUE" ->
            db_transaction (createBooking_body_on (inr error) input) db
            = (Throw error, db))).
Proof.
  split.
  - intros _ H.
    destruct (isValidDateFormat (Input.date input)) as [[] | e0] eqn:Hv.
    + destruct (existsb (statements.has_date (Input.date input)) (bookings db))
        eqn:Hx.
      * rewrite (createBooking_taken now input db Hv Hx) in H.
        injection H as <- <-.
        split; [reflexivity |]. right. left.
        split; [reflexivity |]. split; [| reflexivity].
        apply (proj1 (existsb_has_date (Input.date input) (bookings db))).
        exact Hx.
      * rewrite (createBooking_fresh now input db Hv Hx) in H. discriminate.
    + rewrite (createBooking_invalid now input db Hv) in H.
      injection H as <- <-.
      split; [reflexivity |]. now left.
    + rewrite (createBooking_check_throws now input db e0 Hv) in H.
      injection H as <- <-.
      split; [reflexivity |]. right. right.
      split; [reflexivity |].
      now apply isValidDateFormat_throws in Hv as (_ & _ & ->).
  - intros error. unfold db_transaction, createBooking_body_on.
    destruct (code error) as [c |] eqn:Hc.
    + destruct (String.eqb_spec c "SQLITE_CONSTRAINT_UNIQUE") as [-> | Hne].
      * split; [reflexivity | congruence].
      * split; [intros E; congruence | reflexivity].
    + split; [discriminate | reflexivity].
Qed.

Lemma createBooking_failure_atomic_witness :
  let db := mkDatabase [mkBooking 1 "2025-12-04" None None "t1"] 1 in
  let input := Input.mk "2025-13-04" None None in
  let full := SqliteError "SQLITE_FULL" "database or disk is full" in
  createBooking "t2" input db = (Throw (RangeError "Invalid time value"), db)
  /\ isValidDateFormat "2025-13-04" = Throw (RangeError "Invalid time value")
  /\ db_transaction (createBooking_body_on (inr full) input) db
     = (Throw full, db).
Proof.
  intros db input full.
  assert (Hsafe : ids_safe db)
    by (split; [reflexivity | constructor; [reflexivity | constructor]]).
  assert (H : createBooking "t2" input db
              = (Throw (RangeError "Invalid time value"), db))
    by (vm_compute; reflexivity).
  destruct (createBooking_failure_atomic "t2" input db db
              (RangeError "Invalid time value")) as [Hthrown Hstorage].
  split; [exact H |]. split.
  - destruct (Hthrown Hsafe H) as [_ [[Hf _] | [[Ht _] | [Hthrow _]]]].
    + vm_compute in Hf. discriminate.
    + vm_compute in Ht. discriminate.
    + exact Hthrow.
  - apply (Hstorage full). discriminate.
Defined.

(** ** The routes *)

Section Routes.
Import statements.

(** The five ways [POST /api/bookings] can go. *)
Lemma post_bookings_cases (now : string) (req : Server.RequestBody)
    (db : Database) :
  ((Server.date req = None \/ Server.date req = Some "")
   /\ Server.post_bookings now req db
      = (Server.mkResponse 400 (Server.JsonError "Date is required"), db))
  \/ exists d, Server.date req = Some d /\ d <> "" /\
       let input := Input.mk d (Server.employee_name req)
                      (Server.employee_email req) in
       (calendar_date d
        /\ existsb (has_date d) (bookings db) = false
        /\ Server.post_bookings now req db
           = (Server.mkResponse 201
                (Server.JsonBooking (Some (inserted_row now input db))),
              inserted_db now input db))
       \/ (calendar_date d
           /\ existsb (has_date d) (bookings db) = true
           /\ Server.post_bookings now req db
              = (Server.mkResponse 409
                   (Server.JsonError ("Date " ++ d ++ " is already booked")), db))
       \/ (~ calendar_date d
           /\ Server.post_bookings now req db
              = (Server.mkResponse 500
                   (Server.JsonError "Failed to create booking"), db)).
Proof.
  destruct req as [[d |] name email]; cbn [Server.date Server.employee_name
                                             Server.employee_email];
    [| left; split; [now left | reflexivity]].
  destruct (String.eqb_spec d "") as [-> | Hne];
    [left; split; [now right | reflexivity] |].
  right. exists d. split; [reflexivity |]. split; [exact Hne |]. cbv zeta.
  destruct (isValidDateFormat d) as [[] | e] eqn:Hv.
  - pose proof (proj1 (valid_iff_calendar d) Hv) as Hcal.
    destruct (existsb (has_date d) (bookings db)) eqn:Hx.
    + right. left. split; [exact Hcal |]. split; [reflexivity |].
      now apply post_bookings_taken_is_409.
    + left. split; [exact Hcal |]. split; [reflexivity |].
      unfold Server.post_bookings. cbn [Server.date Server.employee_name
                                          Server.employee_email].
      apply String.eqb_neq in Hne. rewrite Hne.
      now rewrite createBooking_fresh.
  - right. right. split.
    + intros Hcal. apply valid_iff_calendar in Hcal. congruence.
    + now apply post_bookings_invalid_is_500.
  - right. right. split.
    + intros Hcal. apply valid_iff_calendar in Hcal. congruence.
    + unfold Server.post_bookings. cbn [Server.date].
      apply String.eqb_neq in Hne. rewrite Hne.
      rewrite (createBooking_check_throws now _ db e) by exact Hv.
      apply isValidDateFormat_throws in Hv as (_ & _ & ->). reflexivity.
Qed.

Lemma calendar_date_not_empty (d : string) : calendar_date d -> d <> "".
Proof.
  intros (y & m & dd & -> & _). rewrite date_text_chars. discriminate.
Qed.

End Routes.

(** X14: the status of [POST /api/bookings] for a JSON body whose [date],
    [employee_name] and [employee_email] are strings or absent, on a table
    whose identifiers are below [MAX_SAFE_INTEGER], case by case: 201 exactly
    for a calendar date that is free, 409 exactly for a calendar date that
    is taken, 400 exactly when the date is missing or empty, 500 exactly for
    a non-empty date that is not a calendar date; and only a 201 changes the
    collection. *)
Theorem post_bookings_status (now : string) (req : Server.RequestBody)
    (db : Database) :
  ids_safe db ->
  let resp := fst (Server.post_bookings now req db) in
  let db' := snd (Server.post_bookings now req db) in
  (Server.status resp = 201 <->
   exists d, Server.date req = Some d /\ calendar_date d
             /\ forall b, In b (bookings db) -> date b <> d)
  /\ (Server.status resp = 409 <->
      exists d, Server.date req = Some d /\ calendar_date d
                /\ exists b, In b (bookings db) /\ date b = d)
  /\ (Server.status resp = 400 <->
      Server.date req = None \/ Server.date req = Some "")
  /\ (Server.status resp = 500 <->
      exists d, Server.date req = Some d /\ d <> "" /\ ~ calendar_date d)
  /\ (Server.status resp <> 201 -> db' = db).
Proof.
  intros _. cbv zeta.
  assert (Hfree : forall d,
             existsb (statements.has_date d) (bookings db) = false <->
             forall b, In b (bookings db) -> date b <> d).
  { intros d. split.
    - intros Hx b Hb E.
      assert (existsb (statements.has_date d) (bookings db) = true)
        by (apply existsb_has_date; eauto).
      congruence.
    - intros Hno.
      destruct (existsb (statements.has_date d) (bookings db)) eqn:E;
        [| reflexivity].
      apply existsb_has_date in E as (b & Hb & Hd). now elim (Hno b Hb). }
  destruct (post_bookings_cases now req db)
    as [[Hd ->] | (d & Hd & Hne & [(Hcal & Hx & ->) | [(Hcal & Hx & ->)
                                                      | (Hcal & ->)]])];
    cbn [fst snd Server.status].
  - repeat split; try discriminate; try tauto.
    + intros (d & E & Hcal & _). apply calendar_date_not_empty in Hcal.
      destruct Hd; congruence.
    + intros (d & E & Hcal & _). apply calendar_date_not_empty in Hcal.
      destruct Hd; congruence.
    + intros (d & E & Hn & _). destruct Hd; congruence.
  - repeat split; try discriminate; try tauto.
    + intros _. exists d. split; [exact Hd |]. split; [exact Hcal |].
      exact (proj1 (Hfree d) Hx).
    + intros (d' & E & _ & b & Hb & Hdb). assert (d' = d) by congruence.
      subst d'. now elim (proj1 (Hfree d) Hx b Hb).
    + intros [E | E]; congruence.
    + intros (d' & E & _ & Hn). assert (d' = d) by congruence. now subst d'.
  - repeat split; try discriminate; try tauto.
    + intros (d' & E & _ & Hno). assert (d' = d) by congruence. subst d'.
      pose proof (proj2 (Hfree d) Hno). congruence.
    + intros _. exists d. split; [exact Hd |]. split; [exact Hcal |].
      now apply existsb_has_date.
    + intros [E | E]; congruence.
    + intros (d' & E & _ & Hn). assert (d' = d) by congruence. now subst d'.
  - repeat split; try discriminate; try tauto.
    + intros (d' & E & Hc & _). assert (d' = d) by congruence. now subst d'.
    + intros (d' & E & Hc & _). assert (d' = d) by congruence. now subst d'.
    + intros [E | E]; congruence.
    + intros _. now exists d.
Qed.

Lemma post_bookings_status_witness :
  let db := mkDatabase [mkBooking 1 "2025-12-04" None None "t1"] 1 in
  Server.status (fst (Server.post_bookings "t2"
                        (Server.mkBody (Some "2025-12-04") None None) db)) = 409
  /\ Server.status (fst (Server.post_bookings "t2"
                           (Server.mkBody (Some "2025-12-05") None None) db)) = 201
  /\ Server.status (fst (Server.post_bookings "t2"
                           (Server.mkBody None None None) db)) = 400.
Proof.
  intros db.
  assert (Hsafe : ids_safe db)
    by (split; [reflexivity | constructor; [reflexivity | constructor]]).
  destruct (post_bookings_status "t2" (Server.mkBody None None None) db Hsafe)
    as (_ & _ & H400 & _).
  split; [vm_compute; reflexivity |]. split; [vm_compute; reflexivity |].
  apply H400. now left.
Defined.

(** X15: [DELETE /api/bookings/:date] answers 204 without a body when the
    date had a booking and 404 with [Booking not found], changing nothing,
    when it had none; afterwards no booking of that date is stored, and a
    second DELETE of the date is always answered with 404. *)
Theorem delete_booking_route (d : string) (db : Database) :
  let resp := fst (Server.delete_booking d db) in
  let db' := snd (Server.delete_booking d db) in
  ((exists b, In b (bookings db) /\ date b = d) ->
   resp = Server.mkResponse 204 Server.NoBody)
  /\ ((forall b, In b (bookings db) -> date b <> d) ->
      resp = Server.mkResponse 404 (Server.JsonError "Booking not found")
      /\ db' = db)
  /\ (forall b, In b (bookings db') -> date b <> d)
  /\ Server.delete_booking d db'
     = (Server.mkResponse 404 (Server.JsonError "Booking not found"), db').
Proof.
  cbv zeta. unfold Server.delete_booking. rewrite deleteBooking_eq.
  destruct (existsb (statements.has_date d) (bookings db)) eqn:Hx;
    cbn [negb fst snd].
  - assert (Hgone : existsb (statements.has_date d)
                      (filter (fun b => negb (statements.has_date d b))
                         (bookings db)) = false)
      by apply existsb_after_delete.
    split; [reflexivity |]. split; [| split].
    + intros Hno. apply existsb_has_date in Hx as (b & Hb & Hd).
      now elim (Hno b Hb).
    + intros b Hb E. cbn [bookings] in Hb.
      assert (existsb (statements.has_date d)
                (filter (fun b => negb (statements.has_date d b))
                   (bookings db)) = true)
        by (apply existsb_has_date; eauto).
      congruence.
    + rewrite deleteBooking_eq. cbn [bookings sqlite_sequence].
      rewrite Hgone. cbn [negb].
      now rewrite filter_keep_all by exact Hgone.
  - rewrite filter_keep_all by exact Hx.
    assert (Hdb : mkDatabase (bookings db) (sqlite_sequence db) = db)
      by (now destruct db).
    rewrite !Hdb.
    split; [| split; [| split]].
    + intros Hex. apply existsb_has_date in Hex. congruence.
    + intros _. now split.
    + intros b Hb E.
      assert (existsb (statements.has_date d) (bookings db) = true)
        by (apply existsb_has_date; eauto).
      congruence.
    + rewrite deleteBooking_eq, Hx, filter_keep_all by exact Hx.
      cbn [negb]. now rewrite Hdb.
Qed.

Lemma delete_booking_route_witness :
  let db := mkDatabase [mkBooking 1 "2025-12-12" None None "t1"] 1 in
  fst (Server.delete_booking "2025-12-12" db)
  = Server.mkResponse 204 Server.NoBody
  /\ fst (Server.delete_booking "2099-12-31" db)
     = Server.mkResponse 404 (Server.JsonError "Booking not found").
Proof.
  intros db.
  destruct (delete_booking_route "2025-12-12" db) as (H204 & _).
  destruct (delete_booking_route "2099-12-31" db) as (_ & H404 & _).
  split.
  - apply H204. exists (mkBooking 1 "2025-12-12" None None "t1").
    split; [now left | reflexivity].
  - apply H404. intros b Hb. destruct Hb as [Hb | []]. subst b.
    cbn [date]. discriminate.
Defined.

(** X16: on a table whose identifiers are below [MAX_SAFE_INTEGER], a
    booking created through POST is in the body of the next GET; after a
    DELETE of its date, answered with 204, GET lists no booking of that
    date. *)
Theorem http_round_trip (now : string) (req : Server.RequestBody)
    (db : Database) :
  ids_safe db ->
  Server.status (fst (Server.post_bookings now req db)) = 201 ->
  let db1 := snd (Server.post_bookings now req db) in
  exists d b,
    Server.date req = Some d
    /\ Server.body (fst (Server.post_bookings now req db))
       = Server.JsonBooking (Some b)
    /\ date b = d
    /\ (exists l, Server.get_bookings db1
                  = Server.mkResponse 200 (Server.JsonBookings l)
                  /\ In b l)
    /\ fst (Server.delete_booking d db1) = Server.mkResponse 204 Server.NoBody
    /\ (exists l, Server.get_bookings (snd (Server.delete_booking d db1))
                  = Server.mkResponse 200 (Server.JsonBookings l)
                  /\ forall c, In c l -> date c <> d).
Proof.
  intros _ H201. cbv zeta.
  destruct (post_bookings_cases now req db)
    as [[Hd E] | (d & Hd & Hne & [(Hcal & Hx & E) | [(Hcal & Hx & E)
                                                    | (Hcal & E)]])];
    rewrite E in H201 |- *; cbn [fst snd Server.status Server.body] in *;
    try discriminate.
  set (input := Input.mk d (Server.employee_name req) (Server.employee_email req)).
  assert (Hin : In (inserted_row now input db)
                  (bookings (inserted_db now input db)))
    by (cbn [bookings inserted_db]; apply in_or_app; right; now left).
  exists d, (inserted_row now input db).
  split; [exact Hd |]. split; [reflexivity |]. split; [reflexivity |].
  split; [| split].
  - eexists. split; [reflexivity |].
    unfold getAllBookings, statements.getAllBookings_all.
    eapply Permutation_in; [apply order_by_date_perm | exact Hin].
  - unfold Server.delete_booking. rewrite deleteBooking_eq.
    replace (existsb (statements.has_date d)
               (bookings (inserted_db now input db))) with true;
      [reflexivity |].
    symmetry. apply existsb_has_date.
    exists (inserted_row now input db). split; [exact Hin | reflexivity].
  - eexists. split; [reflexivity |].
    intros c Hc. unfold getAllBookings, statements.getAllBookings_all in Hc.
    eapply Permutation_in in Hc;
      [| apply Permutation_sym, order_by_date_perm].
    unfold Server.delete_booking in Hc. rewrite deleteBooking_eq in Hc.
    destruct (negb (existsb (statements.has_date d)
                      (bookings (inserted_db now input db))));
      cbn [snd bookings] in Hc; apply filter_In in Hc as [_ Hc];
      unfold statements.has_date in Hc;
      destruct (String.eqb_spec (date c) d); [discriminate | assumption
                                             | discriminate | assumption].
Qed.

Lemma http_round_trip_witness :
  let req := Server.mkBody (Some "2025-12-01") (Some "John Doe")
               (Some "john@example.com") in
  Server.status (fst (Server.post_bookings "t1" req emptyDatabase)) = 201
  /\ fst (Server.delete_booking "2025-12-01"
            (snd (Server.post_bookings "t1" req emptyDatabase)))
     = Server.mkResponse 204 Server.NoBody.
Proof.
  intros req.
  assert (H : Server.status (fst (Server.post_bookings "t1" req emptyDatabase))
              = 201) by (vm_compute; reflexivity).
  split; [exact H |].
  assert (Hsafe : ids_safe emptyDatabase)
    by (split; [reflexivity | constructor]).
  destruct (http_round_trip "t1" req emptyDatabase Hsafe H)
    as (d & b & Hd & _ & _ & _ & Hdel & _).
  injection Hd as <-. exact Hdel.
Defined.

(** ** The booking form against the routes *)

(** X17: on a table whose identifiers are below [MAX_SAFE_INTEGER], when
    the input the form builds is posted and answered with 201, the created
    booking has the date of the form, and for the name and the
    email what was typed, a field left blank being stored as null. *)
Theorem form_fields_stored (now : string) (formData : App.FormData)
    (db : Database) :
  ids_safe db ->
  Server.status (fst (Server.post_bookings now (App.bookingInput formData) db))
  = 201 ->
  exists b,
    Server.body (fst (Server.post_bookings now (App.bookingInput formData) db))
    = Server.JsonBooking (Some b)
    /\ getBookingByDate (App.date formData)
         (snd (Server.post_bookings now (App.bookingInput formData) db))
       = Some b
    /\ date b = App.date formData
    /\ employee_name b
       = (if (App.employee_name formData =? "")%string then None
          else Some (App.employee_name formData))
    /\ employee_email b
       = (if (App.employee_email formData =? "")%string then None
          else Some (App.employee_email formData)).
Proof.
  intros _ H201.
  destruct (post_bookings_cases now (App.bookingInput formData) db)
    as [[Hd E] | (d & Hd & Hne & [(Hcal & Hx & E) | [(Hcal & Hx & E)
                                                    | (Hcal & E)]])];
    rewrite E in H201 |- *; cbn [fst snd Server.status Server.body] in *;
    try discriminate.
  cbn [App.bookingInput Server.date Server.employee_name
         Server.employee_email] in *.
  injection Hd as <-.
  eexists. split; [reflexivity |].
  split;
    [exact (inserted_row_stored now
              (Input.mk (App.date formData)
                 (App.spread_if_set (App.employee_name formData))
                 (App.spread_if_set (App.employee_email formData))) db Hx) |].
  cbn [date employee_name employee_email inserted_row Input.date
         Input.employee_name Input.employee_email].
  split; [reflexivity |].
  unfold App.spread_if_set, or_null.
  split.
  - destruct (App.employee_name formData =? "")%string eqn:E1;
      [reflexivity | now rewrite E1].
  - destruct (App.employee_email formData =? "")%string eqn:E2;
      [reflexivity | now rewrite E2].
Qed.

Lemma form_fields_stored_witness :
  let formData := App.mkFormData "2025-12-01" "John Doe" "" in
  exists b,
    Server.body (fst (Server.post_bookings "t1" (App.bookingInput formData)
                        emptyDatabase))
    = Server.JsonBooking (Some b)
    /\ employee_name b = Some "John Doe" /\ employee_email b = None.
Proof.
  intros formData.
  destruct (form_fields_stored "t1" formData emptyDatabase)
    as (b & Hb & _ & _ & Hn & He).
  - split; [reflexivity | constructor].
  - vm_compute. reflexivity.
  - exists b. split; [exact Hb |]. split; [exact Hn | exact He].
Defined.

(** X18: a request the form sends (its date is not empty) is never answered
    with 400 by the POST route, so the form never shows its message for an
    invalid date format. *)
Theorem form_never_shows_invalid_format (now : string)
    (formData : App.FormData) (db : Database) :
  App.date formData <> "" ->
  let status := Server.status
                  (fst (Server.post_bookings now (App.bookingInput formData) db)) in
  status <> 400
  /\ (status = 201 \/ status = 409 \/ status = 500)
  /\ App.submitError status <> "Invalid date format. Please use a valid date.".
Proof.
  intros Hne. cbv zeta.
  destruct (post_bookings_cases now (App.bookingInput formData) db)
    as [[Hd E] | (d & Hd & _ & [(_ & _ & E) | [(_ & _ & E) | (_ & E)]])];
    rewrite E; cbn [fst Server.status].
  - cbn [App.bookingInput Server.date] in Hd.
    destruct Hd as [Hd | Hd]; [discriminate | congruence].
  - split; [discriminate |]. split; [now left | discriminate].
  - split; [discriminate |]. split; [now right; left | discriminate].
  - split; [discriminate |]. split; [now right; right | discriminate].
Qed.

Lemma form_never_shows_invalid_format_witness :
  Server.status
    (fst (Server.post_bookings "t1"
            (App.bookingInput (App.mkFormData "2025/12/03" "" ""))
            emptyDatabase)) <> 400.
Proof.
  apply (form_never_shows_invalid_format "t1"
           (App.mkFormData "2025/12/03" "" "") emptyDatabase).
  discriminate.
Defined.

(** ** Racing calls, whatever the date and the state *)

Section RaceSafety.
Import Concurrent Race statements.
Variables (d : string) (db : Database).
Hypothesis blocked :
  isValidDateFormat d <> Return true
  \/ existsb (has_date d) (bookings db) = true.

Lemma blocked_no_winner (pool : list Call) :
  Forall (call_blocked d) pool -> winners pool = 0%nat.
Proof.
  unfold winners. induction 1 as [| c l [_ Hc] _ IH]; [reflexivity |].
  cbn [filter]. destruct c as [| | input [r | e]]; cbn [is_winner]; try exact IH.
  destruct Hc as [e He]. discriminate.
Qed.

Lemma step_call_blocked (c : Call) :
  call_blocked d c ->
  call_blocked d (fst (step_call c db)) /\ snd (step_call c db) = db.
Proof.
  intros [Hd Hc]. destruct c as [now input | now input | input r];
    cbn [call_input] in Hd; cbn [step_call].
  - rewrite Hd. destruct (isValidDateFormat d) as [[] | e] eqn:Hv;
      cbn [fst snd]; (split; [split; [exact Hd |] | reflexivity]);
      cbn; eauto.
  - destruct blocked as [Hb | Hb]; [contradiction |].
    unfold createBooking_transaction, db_transaction, createBooking_body,
    createBooking_body_on,
      createBooking_run.
    rewrite Hd, Hb. cbn [code String.eqb fst snd].
    split; [| reflexivity]. split; [exact Hd |]. cbn. eauto.
  - cbn [fst snd]. split; [| reflexivity]. now split.
Qed.

Lemma run_blocked (schedule : list nat) (pool : list Call) :
  Forall (call_blocked d) pool ->
  Forall (call_blocked d) (fst (run schedule pool db))
  /\ snd (run schedule pool db) = db.
Proof.
  revert pool. induction schedule as [| i rest IH]; intros pool Hp;
    [now split |].
  cbn [run].
  destruct (step_at_split i pool db) as [E | (pre & c & post & -> & E)];
    rewrite E.
  - now apply IH.
  - apply Forall_app in Hp as [Hpre Hrest].
    inversion Hrest as [| ? ? Hc Hpost]; subst.
    destruct (step_call_blocked c Hc) as [Hc' Hdb]. rewrite Hdb.
    apply IH. apply Forall_app. split; [exact Hpre | now constructor].
Qed.

End RaceSafety.

(** X19: any number of calls of [createBooking] for one date, started in
    any state and run under any schedule, stopped at any point: at most one
    call has returned, and the collection holds as many more bookings of that
    date as calls have returned. *)
Theorem never_two_winners (d : string)
    (calls : list (string * CreateBookingInput)) (db : Database)
    (schedule : list nat) :
  Forall (fun c => Input.date (snd c) = d) calls ->
  let pool := fst (Concurrent.run schedule (Concurrent.start calls) db) in
  let db' := snd (Concurrent.run schedule (Concurrent.start calls) db) in
  (Concurrent.winners pool <= 1)%nat
  /\ live_count d db' = (live_count d db + Concurrent.winners pool)%nat.
Proof.
  intros Hd. cbv zeta.
  destruct (isValidDateFormat d) as [[] | e] eqn:Hv.
  - destruct (existsb (statements.has_date d) (bookings db)) eqn:Hx.
    + assert (Hb : isValidDateFormat d <> Return true
                   \/ existsb (statements.has_date d) (bookings db) = true)
        by now right.
      destruct (run_blocked d db Hb schedule (Concurrent.start calls))
        as [Hp ->].
      { unfold Concurrent.start. apply Forall_map.
        eapply Forall_impl; [| exact Hd]. intros [now input] H. now split. }
      rewrite (blocked_no_winner d _ Hp). lia.
    + apply live_count_zero in Hx.
      destruct (run_preserves d Hv schedule (Concurrent.start calls) db
                  (start_inv d Hv calls db Hd Hx)) as [(_ & Hwin & Hle) _].
      rewrite Hx. lia.
  - assert (Hb : isValidDateFormat d <> Return true
                 \/ existsb (statements.has_date d) (bookings db) = true)
      by (left; congruence).
    destruct (run_blocked d db Hb schedule (Concurrent.start calls))
      as [Hp ->].
    { unfold Concurrent.start. apply Forall_map.
      eapply Forall_impl; [| exact Hd]. intros [now input] H. now split. }
    rewrite (blocked_no_winner d _ Hp). lia.
  - assert (Hb : isValidDateFormat d <> Return true
                 \/ existsb (statements.has_date d) (bookings db) = true)
      by (left; congruence).
    destruct (run_blocked d db Hb schedule (Concurrent.start calls))
      as [Hp ->].
    { unfold Concurrent.start. apply Forall_map.
      eapply Forall_impl; [| exact Hd]. intros [now input] H. now split. }
    rewrite (blocked_no_winner d _ Hp). lia.
Qed.

Lemma never_two_winners_witness :
  let db := mkDatabase [mkBooking 1 "2025-12-15" None None "t0"] 1 in
  let calls := [("t1", Input.mk "2025-12-15" (Some "User 1") None);
                ("t2", Input.mk "2025-12-15" (Some "User 2") None)] in
  let schedule := [1; 0; 0; 1]%nat in
  (Concurrent.winners (fst (Concurrent.run schedule (Concurrent.start calls) db))
   <= 1)%nat
  /\ snd (Concurrent.run schedule (Concurrent.start calls) db) = db.
Proof.
  intros db calls schedule.
  destruct (never_two_winners "2025-12-15" calls db schedule) as [Hw _].
  - repeat constructor.
  - split; [exact Hw | vm_compute; reflexivity].
Defined.

(** The two stages a racing call goes through, run back to back, are
    [createBooking]: same result, same state. *)
Lemma stages_compose (now : string) (input : CreateBookingInput)
    (db : Database) :
  Concurrent.step_call
    (fst (Concurrent.step_call (Concurrent.Pending now input) db))
    (snd (Concurrent.step_call (Concurrent.Pending now input) db))
  = (Concurrent.Finished input (fst (createBooking now input db)),
     snd (createBooking now input db)).
Proof.
  unfold createBooking. cbn [Concurrent.step_call].
  destruct (isValidDateFormat (Input.date input)) as [[] | e];
    cbn [fst snd Concurrent.step_call]; try reflexivity.
  now destruct (createBooking_transaction now input db).
Qed.
